(** * ottldatapoint: path resolution and field accessors of the data-point context

    A shallow embedding of [pkg/ottl/contexts/ottldatapoint]: the
    [TransformContext], the enum symbol table with [parseEnum], the path
    resolver [parsePath] / [newPathGetSetter] and the [access*] get/set
    closures, followed by the properties stated about them.

    Conventions.
    - Go integers are [Z] with the conversions between widths written out.
    - A [float64] is a primitive float; the package only stores and loads it.
    - An [interface{}] value is the inductive [any]; a pdata wrapper held in
      an [interface{}] is represented by the content it points to when the
      value is produced.
    - The subject data point is carried by the context and the setters
      return the updated context; the cache is a [pcommon.Map] living in a
      store of maps, addressed by the reference the context holds. *)

From Stdlib Require Import ZArith String List Lia PrimFloat.
From stdpp Require Import base option gmap strings.

Local Open Scope string_scope.
Local Open Scope Z_scope.

(** ** Fixed-width integers *)

Module Int.

Definition two32 : Z := 2 ^ 32.
Definition two63 : Z := 2 ^ 63.
Definition two64 : Z := 2 ^ 64.

Definition is_uint64 (z : Z) : Prop := 0 <= z < two64.
Definition is_uint32 (z : Z) : Prop := 0 <= z < two32.
Definition is_int64 (z : Z) : Prop := - two63 <= z < two63.
Definition is_int32 (z : Z) : Prop := - 2 ^ 31 <= z < 2 ^ 31.

(** [int64(v)] for any integer [v]: keep the low 64 bits, read as signed. *)
Definition int64 (z : Z) : Z := (z + two63) mod two64 - two63.

(** [uint64(v)]: keep the low 64 bits, read as unsigned. *)
Definition uint64 (z : Z) : Z := z mod two64.

(** [int32(v)]: keep the low 32 bits, read as signed. *)
Definition int32 (z : Z) : Z := (z + 2 ^ 31) mod two32 - 2 ^ 31.

(** [uint32(v)]: keep the low 32 bits, read as unsigned. *)
Definition uint32 (z : Z) : Z := z mod two32.

End Int.

(** ** The part of Go's [time] package the accessors go through *)

Module time.

(** A [time.Time] as seconds and nanoseconds since the Unix epoch; the
    location does not take part in [UnixNano]. *)
Record Time : Type := mkTime { sec : Z; nsec : Z }.

Definition e9 : Z := 1000000000.

(** [time.Unix(sec, nsec)]: [nsec] outside [0, 1e9) is folded into
    [sec]; Go's [/] truncates towards zero. *)
Definition Unix (sec nsec : Z) : Time :=
  if (nsec <? 0) || (nsec >=? e9) then
    let n := Z.quot nsec e9 in
    let sec1 := Int.int64 (sec + n) in
    let nsec1 := Int.int64 (nsec - Int.int64 (n * e9)) in
    if nsec1 <? 0
    then mkTime (Int.int64 (sec1 - 1)) (Int.int64 (nsec1 + e9))
    else mkTime sec1 nsec1
  else mkTime sec nsec.

(** [t.UTC()] changes the location only. *)
Definition UTC (t : Time) : Time := t.

(** [t.UnixNano()]: [sec*1e9 + nsec] in [int64] arithmetic. *)
Definition UnixNano (t : Time) : Z :=
  Int.int64 (Int.int64 (sec t * e9) + nsec t).

End time.

(** ** pcommon: values, maps and timestamps *)

Module pcommon.

(** [pcommon.Value], the OTLP any-value. *)
#[warnings="-register-all"]
Inductive Value : Type :=
| ValueEmpty
| ValueStr (s : string)
| ValueInt (i : Z)
| ValueDouble (d : float)
| ValueBool (b : bool)
| ValueBytes (bs : list Z)
| ValueMap (m : list (string * Value))
| ValueSlice (l : list Value).

(** [pcommon.Map] wraps a slice of key/value pairs. *)
Definition Map : Type := list (string * Value).

Definition NewMapContent : Map := [].

(** [m.Get(key)]: the first entry stored under [key]. *)
Fixpoint Get (m : Map) (key : string) : option Value :=
  match m with
  | [] => None
  | (k, v) :: rest => if String.eqb k key then Some v else Get rest key
  end.

(** Writing [v] under [key]: an existing entry is overwritten in place,
    otherwise the pair is appended. *)
Fixpoint Put (m : Map) (key : string) (v : Value) : Map :=
  match m with
  | [] => [(key, v)]
  | (k, x) :: rest =>
      if String.eqb k key then (k, v) :: rest else (k, x) :: Put rest key v
  end.

(** [src.CopyTo(dest)]: afterwards [dest] holds the entries of [src]. *)
Definition CopyTo (src dest : Map) : Map := src.

(** Maps are reference objects: a store holds the content of every
    allocated map and [pcommon.NewMap()] allocates a fresh, empty one. *)
Definition NewMap (st : gmap positive Map) : positive * gmap positive Map :=
  let r := fresh (dom st) in (r, <[r := NewMapContent]> st).

(** Resource and scope are only handed through by this package. *)
Definition Resource : Type := positive.
Definition InstrumentationScope : Type := positive.

(** [pcommon.Timestamp] is a [uint64] of nanoseconds since the epoch. *)
Definition Timestamp : Type := Z.

Definition AsTime (ts : Timestamp) : time.Time :=
  time.UTC (time.Unix 0 (Int.int64 ts)).

Definition NewTimestampFromTime (t : time.Time) : Timestamp :=
  Int.uint64 (time.UnixNano t).

End pcommon.

(** ** pmetric: the four data-point shapes *)

Module pmetric.

(** The [oneof] value of a number data point or of an exemplar. *)
Inductive NumberValue : Type :=
| NumberEmpty
| NumberInt (i : Z)
| NumberDouble (d : float).

Record Exemplar : Type := mkExemplar {
  FilteredAttributes : pcommon.Map;
  ExemplarTimestamp : pcommon.Timestamp;
  ExemplarValue : NumberValue;
  SpanID : list Z;
  TraceID : list Z
}.

Definition ExemplarSlice : Type := list Exemplar.

Record ValueAtQuantile : Type := mkValueAtQuantile {
  Quantile : float;
  QuantileValue : float
}.

Definition SummaryDataPointValueAtQuantileSlice : Type := list ValueAtQuantile.

(** [DataPointFlags] is a [uint32]. *)
Definition DataPointFlags : Type := Z.

(** Owning metric, sibling collection, scope and resource are only handed
    through by this package. *)
Definition Metric : Type := positive.
Definition MetricSlice : Type := positive.

Module ExponentialHistogramDataPointBuckets.
Record t : Type := mk { Offset : Z; BucketCounts : list Z }.
Definition SetOffset (ms : t) (v : Z) : t := mk v (BucketCounts ms).
Definition SetBucketCounts (ms : t) (v : list Z) : t := mk (Offset ms) v.
Definition CopyTo (src dest : t) : t := src.
End ExponentialHistogramDataPointBuckets.

Module NumberDataPoint.
Record t : Type := mk {
  Attributes : pcommon.Map;
  StartTimestamp : pcommon.Timestamp;
  Timestamp : pcommon.Timestamp;
  value : NumberValue;
  Exemplars : ExemplarSlice;
  Flags : DataPointFlags
}.
(** The getters of the [oneof] return the zero value when the point
    holds the other alternative. *)
Definition DoubleValue (ms : t) : float :=
  match value ms with NumberDouble d => d | _ => 0%float end.
Definition IntValue (ms : t) : Z :=
  match value ms with NumberInt i => i | _ => 0 end.
Definition SetAttributes (ms : t) (v : pcommon.Map) : t :=
  mk v (StartTimestamp ms) (Timestamp ms) (value ms) (Exemplars ms) (Flags ms).
Definition SetStartTimestamp (ms : t) (v : pcommon.Timestamp) : t :=
  mk (Attributes ms) v (Timestamp ms) (value ms) (Exemplars ms) (Flags ms).
Definition SetTimestamp (ms : t) (v : pcommon.Timestamp) : t :=
  mk (Attributes ms) (StartTimestamp ms) v (value ms) (Exemplars ms) (Flags ms).
Definition SetDoubleValue (ms : t) (v : float) : t :=
  mk (Attributes ms) (StartTimestamp ms) (Timestamp ms) (NumberDouble v)
     (Exemplars ms) (Flags ms).
Definition SetIntValue (ms : t) (v : Z) : t :=
  mk (Attributes ms) (StartTimestamp ms) (Timestamp ms) (NumberInt v)
     (Exemplars ms) (Flags ms).
Definition SetExemplars (ms : t) (v : ExemplarSlice) : t :=
  mk (Attributes ms) (StartTimestamp ms) (Timestamp ms) (value ms) v (Flags ms).
Definition SetFlags (ms : t) (v : DataPointFlags) : t :=
  mk (Attributes ms) (StartTimestamp ms) (Timestamp ms) (value ms) (Exemplars ms) v.
End NumberDataPoint.

Module HistogramDataPoint.
Record t : Type := mk {
  Attributes : pcommon.Map;
  StartTimestamp : pcommon.Timestamp;
  Timestamp : pcommon.Timestamp;
  Count : Z;
  sum : option float;
  BucketCounts : list Z;
  ExplicitBounds : list float;
  Exemplars : ExemplarSlice;
  Flags : DataPointFlags;
  min : option float;
  max : option float
}.
(** The sum is optional; [Sum()] reads 0 when it is not set. *)
Definition Sum (ms : t) : float := default 0%float (sum ms).
Definition HasSum (ms : t) : bool := bool_decide (is_Some (sum ms)).
Definition SetAttributes (ms : t) (v : pcommon.Map) : t :=
  mk v (StartTimestamp ms) (Timestamp ms) (Count ms) (sum ms) (BucketCounts ms)
     (ExplicitBounds ms) (Exemplars ms) (Flags ms) (min ms) (max ms).
Definition SetStartTimestamp (ms : t) (v : pcommon.Timestamp) : t :=
  mk (Attributes ms) v (Timestamp ms) (Count ms) (sum ms) (BucketCounts ms)
     (ExplicitBounds ms) (Exemplars ms) (Flags ms) (min ms) (max ms).
Definition SetTimestamp (ms : t) (v : pcommon.Timestamp) : t :=
  mk (Attributes ms) (StartTimestamp ms) v (Count ms) (sum ms) (BucketCounts ms)
     (ExplicitBounds ms) (Exemplars ms) (Flags ms) (min ms) (max ms).
Definition SetCount (ms : t) (v : Z) : t :=
  mk (Attributes ms) (StartTimestamp ms) (Timestamp ms) v (sum ms) (BucketCounts ms)
     (ExplicitBounds ms) (Exemplars ms) (Flags ms) (min ms) (max ms).
Definition SetSum (ms : t) (v : float) : t :=
  mk (Attributes ms) (StartTimestamp ms) (Timestamp ms) (Count ms) (Some v)
     (BucketCounts ms) (ExplicitBounds ms) (Exemplars ms) (Flags ms) (min ms) (max ms).
Definition SetBucketCounts (ms : t) (v : list Z) : t :=
  mk (Attributes ms) (StartTimestamp ms) (Timestamp ms) (Count ms) (sum ms) v
     (ExplicitBounds ms) (Exemplars ms) (Flags ms) (min ms) (max ms).
Definition SetExplicitBounds (ms : t) (v : list float) : t :=
  mk (Attributes ms) (StartTimestamp ms) (Timestamp ms) (Count ms) (sum ms)
     (BucketCounts ms) v (Exemplars ms) (Flags ms) (min ms) (max ms).
Definition SetExemplars (ms : t) (v : ExemplarSlice) : t :=
  mk (Attributes ms) (StartTimestamp ms) (Timestamp ms) (Count ms) (sum ms)
     (BucketCounts ms) (ExplicitBounds ms) v (Flags ms) (min ms) (max ms).
Definition SetFlags (ms : t) (v : DataPointFlags) : t :=
  mk (Attributes ms) (StartTimestamp ms) (Timestamp ms) (Count ms) (sum ms)
     (BucketCounts ms) (ExplicitBounds ms) (Exemplars ms) v (min ms) (max ms).
End HistogramDataPoint.

Module ExponentialHistogramDataPoint.
Module Buckets := ExponentialHistogramDataPointBuckets.
Record t : Type := mk {
  Attributes : pcommon.Map;
  StartTimestamp : pcommon.Timestamp;
  Timestamp : pcommon.Timestamp;
  Count : Z;
  sum : option float;
  Scale : Z;
  ZeroCount : Z;
  Positive : Buckets.t;
  Negative : Buckets.t;
  Exemplars : ExemplarSlice;
  Flags : DataPointFlags;
  min : option float;
  max : option float
}.
Definition Sum (ms : t) : float := default 0%float (sum ms).
Definition HasSum (ms : t) : bool := bool_decide (is_Some (sum ms)).
Definition SetAttributes (ms : t) (v : pcommon.Map) : t :=
  mk v (StartTimestamp ms) (Timestamp ms) (Count ms) (sum ms) (Scale ms)
     (ZeroCount ms) (Positive ms) (Negative ms) (Exemplars ms) (Flags ms)
     (min ms) (max ms).
Definition SetStartTimestamp (ms : t) (v : pcommon.Timestamp) : t :=
  mk (Attributes ms) v (Timestamp ms) (Count ms) (sum ms) (Scale ms)
     (ZeroCount ms) (Positive ms) (Negative ms) (Exemplars ms) (Flags ms)
     (min ms) (max ms).
Definition SetTimestamp (ms : t) (v : pcommon.Timestamp) : t :=
  mk (Attributes ms) (StartTimestamp ms) v (Count ms) (sum ms) (Scale ms)
     (ZeroCount ms) (Positive ms) (Negative ms) (Exemplars ms) (Flags ms)
     (min ms) (max ms).
Definition SetCount (ms : t) (v : Z) : t :=
  mk (Attributes ms) (StartTimestamp ms) (Timestamp ms) v (sum ms) (Scale ms)
     (ZeroCount ms) (Positive ms) (Negative ms) (Exemplars ms) (Flags ms)
     (min ms) (max ms).
Definition SetSum (ms : t) (v : float) : t :=
  mk (Attributes ms) (StartTimestamp ms) (Timestamp ms) (Count ms) (Some v)
     (Scale ms) (ZeroCount ms) (Positive ms) (Negative ms) (Exemplars ms)
     (Flags ms) (min ms) (max ms).
Definition SetScale (ms : t) (v : Z) : t :=
  mk (Attributes ms) (StartTimestamp ms) (Timestamp ms) (Count ms) (sum ms) v
     (ZeroCount ms) (Positive ms) (Negative ms) (Exemplars ms) (Flags ms)
     (min ms) (max ms).
Definition SetZeroCount (ms : t) (v : Z) : t :=
  mk (Attributes ms) (StartTimestamp ms) (Timestamp ms) (Count ms) (sum ms)
     (Scale ms) v (Positive ms) (Negative ms) (Exemplars ms) (Flags ms)
     (min ms) (max ms).
Definition SetPositive (ms : t) (v : Buckets.t) : t :=
  mk (Attributes ms) (StartTimestamp ms) (Timestamp ms) (Count ms) (sum ms)
     (Scale ms) (ZeroCount ms) v (Negative ms) (Exemplars ms) (Flags ms)
     (min ms) (max ms).
Definition SetNegative (ms : t) (v : Buckets.t) : t :=
  mk (Attributes ms) (StartTimestamp ms) (Timestamp ms) (Count ms) (sum ms)
     (Scale ms) (ZeroCount ms) (Positive ms) v (Exemplars ms) (Flags ms)
     (min ms) (max ms).
Definition SetExemplars (ms : t) (v : ExemplarSlice) : t :=
  mk (Attributes ms) (StartTimestamp ms) (Timestamp ms) (Count ms) (sum ms)
     (Scale ms) (ZeroCount ms) (Positive ms) (Negative ms) v (Flags ms)
     (min ms) (max ms).
Definition SetFlags (ms : t) (v : DataPointFlags) : t :=
  mk (Attributes ms) (StartTimestamp ms) (Timestamp ms) (Count ms) (sum ms)
     (Scale ms) (ZeroCount ms) (Positive ms) (Negative ms) (Exemplars ms) v
     (min ms) (max ms).
End ExponentialHistogramDataPoint.

Module SummaryDataPoint.
Record t : Type := mk {
  Attributes : pcommon.Map;
  StartTimestamp : pcommon.Timestamp;
  Timestamp : pcommon.Timestamp;
  Count : Z;
  Sum : float;
  QuantileValues : SummaryDataPointValueAtQuantileSlice;
  Flags : DataPointFlags
}.
Definition SetAttributes (ms : t) (v : pcommon.Map) : t :=
  mk v (StartTimestamp ms) (Timestamp ms) (Count ms) (Sum ms)
     (QuantileValues ms) (Flags ms).
Definition SetStartTimestamp (ms : t) (v : pcommon.Timestamp) : t :=
  mk (Attributes ms) v (Timestamp ms) (Count ms) (Sum ms)
     (QuantileValues ms) (Flags ms).
Definition SetTimestamp (ms : t) (v : pcommon.Timestamp) : t :=
  mk (Attributes ms) (StartTimestamp ms) v (Count ms) (Sum ms)
     (QuantileValues ms) (Flags ms).
Definition SetCount (ms : t) (v : Z) : t :=
  mk (Attributes ms) (StartTimestamp ms) (Timestamp ms) v (Sum ms)
     (QuantileValues ms) (Flags ms).
Definition SetSum (ms : t) (v : float) : t :=
  mk (Attributes ms) (StartTimestamp ms) (Timestamp ms) (Count ms) v
     (QuantileValues ms) (Flags ms).
Definition SetQuantileValues (ms : t)
    (v : SummaryDataPointValueAtQuantileSlice) : t :=
  mk (Attributes ms) (StartTimestamp ms) (Timestamp ms) (Count ms) (Sum ms)
     v (Flags ms).
Definition SetFlags (ms : t) (v : DataPointFlags) : t :=
  mk (Attributes ms) (StartTimestamp ms) (Timestamp ms) (Count ms) (Sum ms)
     (QuantileValues ms) v.
End SummaryDataPoint.

End pmetric.

Abbreviation Store := (gmap positive pcommon.Map).

(** ** ottl: paths, enums and dynamically typed values *)

Module ottl.

Record Field : Type := mkField { Name : string; MapKey : option string }.
Record Path : Type := mkPath { Fields : list Field }.

Abbreviation EnumSymbol := string.
Abbreviation Enum := Z.

End ottl.

(** The values an [interface{}] handed to or returned by an accessor holds. *)
Inductive any : Type :=
| VNil
| VString (s : string)
| VBool (b : bool)
| VInt64 (i : Z)
| VFloat64 (d : float)
| VBytes (bs : list Z)
| VMap (m : pcommon.Map)
| VSlice (l : list pcommon.Value)
| VFloat64Slice (l : list float)
| VUint64Slice (l : list Z)
| VExemplarSlice (l : pmetric.ExemplarSlice)
| VBuckets (b : pmetric.ExponentialHistogramDataPointBuckets.t)
| VValueAtQuantileSlice (l : pmetric.SummaryDataPointValueAtQuantileSlice)
| VInt (i : Z)
| VUint64 (u : Z).

(** The errors of this package; [ErrDelegated] stands for whatever a
    resolver of [ottlcommon] reports, [PanicIndexOutOfRange] for indexing
    an empty path. *)
Inductive error : Type :=
| ErrEnumSymbolNotFound (val : ottl.EnumSymbol)
| ErrEnumSymbolNotProvided
| ErrBadPath (val : option ottl.Path)
| ErrInvalidPathExpression (path : list ottl.Field)
| ErrDelegated (msg : string)
| PanicIndexOutOfRange.

Inductive result (A : Type) : Type :=
| Ok (a : A)
| Err (e : error).
Arguments Ok {A} a.
Arguments Err {A} e.

(** ** ottlcommon: map access by key *)

Module ottlcommon.

(** Modelled from the spec: [ottlcommon.GetValue] is not under src/; the
    stored entry is read back as the dynamically typed value of the
    closed sum number/string/bool/bytes/map/list/absent. *)
Definition GetValue (val : pcommon.Value) : any :=
  match val with
  | pcommon.ValueEmpty => VNil
  | pcommon.ValueStr s => VString s
  | pcommon.ValueInt i => VInt64 i
  | pcommon.ValueDouble d => VFloat64 d
  | pcommon.ValueBool b => VBool b
  | pcommon.ValueBytes bs => VBytes bs
  | pcommon.ValueMap m => VMap m
  | pcommon.ValueSlice l => VSlice l
  end.

(** Modelled from the spec: the checked conversion of [ottlcommon.SetValue]
    (not under src/) into the closed value sum; a dynamic type outside
    the sum has no counterpart. *)
Definition SetValue (val : any) : option pcommon.Value :=
  match val with
  | VNil => Some pcommon.ValueEmpty
  | VString s => Some (pcommon.ValueStr s)
  | VInt64 i => Some (pcommon.ValueInt i)
  | VFloat64 d => Some (pcommon.ValueDouble d)
  | VBool b => Some (pcommon.ValueBool b)
  | VBytes bs => Some (pcommon.ValueBytes bs)
  | VMap m => Some (pcommon.ValueMap m)
  | VSlice l => Some (pcommon.ValueSlice l)
  | _ => None
  end.

(** Modelled from the spec: [ottlcommon.GetMapValue] is not under src/; a
    keyed member yields the entry under the key, or the absent marker. *)
Definition GetMapValue (attrs : pcommon.Map) (mapKey : string) : any :=
  match pcommon.Get attrs mapKey with
  | Some val => GetValue val
  | None => VNil
  end.

(** Modelled from the spec: [ottlcommon.SetMapValue] is not under src/; the
    entry under the key is written, and a value whose type does not
    convert is a no-op. *)
Definition SetMapValue (attrs : pcommon.Map) (mapKey : string) (val : any)
    : pcommon.Map :=
  match SetValue val with
  | Some v => pcommon.Put attrs mapKey v
  | None => attrs
  end.

End ottlcommon.

(** ** TransformContext *)

(** What the [interface{}] subject of a context holds. *)
Inductive DataPoint : Type :=
| IsNumber (dp : pmetric.NumberDataPoint.t)
| IsHistogram (dp : pmetric.HistogramDataPoint.t)
| IsExponentialHistogram (dp : pmetric.ExponentialHistogramDataPoint.t)
| IsSummary (dp : pmetric.SummaryDataPoint.t)
| IsOther.

Record TransformContext : Type := mkTransformContext {
  dataPoint : DataPoint;
  metric : pmetric.Metric;
  metrics : pmetric.MetricSlice;
  instrumentationScope : pcommon.InstrumentationScope;
  resource : pcommon.Resource;
  cache : positive
}.

Definition NewTransformContext (dataPoint : DataPoint) (metric : pmetric.Metric)
    (metrics : pmetric.MetricSlice)
    (instrumentationScope : pcommon.InstrumentationScope)
    (resource : pcommon.Resource) (st : Store) : TransformContext * Store :=
  let '(c, st') := pcommon.NewMap st in
  (mkTransformContext dataPoint metric metrics instrumentationScope resource c, st').

Definition GetDataPoint (tCtx : TransformContext) : DataPoint := dataPoint tCtx.
Definition GetInstrumentationScope (tCtx : TransformContext) := instrumentationScope tCtx.
Definition GetResource (tCtx : TransformContext) := resource tCtx.
Definition GetMetric (tCtx : TransformContext) := metric tCtx.
Definition GetMetrics (tCtx : TransformContext) := metrics tCtx.

(** The content of the context's cache in the store. *)
Definition getCache (tCtx : TransformContext) (st : Store) : pcommon.Map :=
  default pcommon.NewMapContent (st !! cache tCtx).

(** The context after its subject was mutated in place. *)
Definition withDataPoint (tCtx : TransformContext) (dp : DataPoint)
    : TransformContext :=
  mkTransformContext dp (metric tCtx) (metrics tCtx) (instrumentationScope tCtx)
    (resource tCtx) (cache tCtx).

(** The context's cache after it was mutated in place. *)
Definition withCache (tCtx : TransformContext) (m : pcommon.Map) (st : Store)
    : Store :=
  <[cache tCtx := m]> st.

(** [ottl.StandardGetSetter[TransformContext]]: the setter returns its
    error together with the context and the store as it leaves them. *)
Record StandardGetSetter : Type := mkStandardGetSetter {
  Getter : TransformContext -> Store -> result any;
  Setter : TransformContext -> any -> Store ->
           option error * TransformContext * Store
}.

(** ** The accessors *)

Module NDP := pmetric.NumberDataPoint.
Module HDP := pmetric.HistogramDataPoint.
Module EDP := pmetric.ExponentialHistogramDataPoint.
Module SDP := pmetric.SummaryDataPoint.
Module EB := pmetric.ExponentialHistogramDataPointBuckets.

Definition accessCache : StandardGetSetter := {|
  Getter := fun tCtx st => Ok (VMap (getCache tCtx st));
  Setter := fun tCtx val st =>
    match val with
    | VMap m => (None, tCtx, withCache tCtx (pcommon.CopyTo m (getCache tCtx st)) st)
    | _ => (None, tCtx, st)
    end
|}.

Definition accessCacheKey (mapKey : string) : StandardGetSetter := {|
  Getter := fun tCtx st => Ok (ottlcommon.GetMapValue (getCache tCtx st) mapKey);
  Setter := fun tCtx val st =>
    (None, tCtx, withCache tCtx (ottlcommon.SetMapValue (getCache tCtx st) mapKey val) st)
|}.

Definition accessAttributes : StandardGetSetter := {|
  Getter := fun tCtx st =>
    match GetDataPoint tCtx with
    | IsNumber dp => Ok (VMap (NDP.Attributes dp))
    | IsHistogram dp => Ok (VMap (HDP.Attributes dp))
    | IsExponentialHistogram dp => Ok (VMap (EDP.Attributes dp))
    | IsSummary dp => Ok (VMap (SDP.Attributes dp))
    | IsOther => Ok VNil
    end;
  Setter := fun tCtx val st =>
    match GetDataPoint tCtx with
    | IsNumber dp =>
        match val with
        | VMap attrs =>
            (None, withDataPoint tCtx
               (IsNumber (NDP.SetAttributes dp (pcommon.CopyTo attrs (NDP.Attributes dp)))), st)
        | _ => (None, tCtx, st)
        end
    | IsHistogram dp =>
        match val with
        | VMap attrs =>
            (None, withDataPoint tCtx
               (IsHistogram (HDP.SetAttributes dp (pcommon.CopyTo attrs (HDP.Attributes dp)))), st)
        | _ => (None, tCtx, st)
        end
    | IsExponentialHistogram dp =>
        match val with
        | VMap attrs =>
            (None, withDataPoint tCtx
               (IsExponentialHistogram
                  (EDP.SetAttributes dp (pcommon.CopyTo attrs (EDP.Attributes dp)))), st)
        | _ => (None, tCtx, st)
        end
    | IsSummary dp =>
        match val with
        | VMap attrs =>
            (None, withDataPoint tCtx
               (IsSummary (SDP.SetAttributes dp (pcommon.CopyTo attrs (SDP.Attributes dp)))), st)
        | _ => (None, tCtx, st)
        end
    | IsOther => (None, tCtx, st)
    end
|}.

Definition accessAttributesKey (mapKey : string) : StandardGetSetter := {|
  Getter := fun tCtx st =>
    match GetDataPoint tCtx with
    | IsNumber dp => Ok (ottlcommon.GetMapValue (NDP.Attributes dp) mapKey)
    | IsHistogram dp => Ok (ottlcommon.GetMapValue (HDP.Attributes dp) mapKey)
    | IsExponentialHistogram dp => Ok (ottlcommon.GetMapValue (EDP.Attributes dp) mapKey)
    | IsSummary dp => Ok (ottlcommon.GetMapValue (SDP.Attributes dp) mapKey)
    | IsOther => Ok VNil
    end;
  Setter := fun tCtx val st =>
    match GetDataPoint tCtx with
    | IsNumber dp =>
        (None, withDataPoint tCtx
           (IsNumber (NDP.SetAttributes dp
              (ottlcommon.SetMapValue (NDP.Attributes dp) mapKey val))), st)
    | IsHistogram dp =>
        (None, withDataPoint tCtx
           (IsHistogram (HDP.SetAttributes dp
              (ottlcommon.SetMapValue (HDP.Attributes dp) mapKey val))), st)
    | IsExponentialHistogram dp =>
        (None, withDataPoint tCtx
           (IsExponentialHistogram (EDP.SetAttributes dp
              (ottlcommon.SetMapValue (EDP.Attributes dp) mapKey val))), st)
    | IsSummary dp =>
        (None, withDataPoint tCtx
           (IsSummary (SDP.SetAttributes dp
              (ottlcommon.SetMapValue (SDP.Attributes dp) mapKey val))), st)
    | IsOther => (None, tCtx, st)
    end
|}.

(** [ts.AsTime().UnixNano()] and [pcommon.NewTimestampFromTime(time.Unix(0, n))]. *)
Definition timestampToNano (ts : pcommon.Timestamp) : Z :=
  time.UnixNano (pcommon.AsTime ts).
Definition nanoToTimestamp (newTime : Z) : pcommon.Timestamp :=
  pcommon.NewTimestampFromTime (time.Unix 0 newTime).

Definition accessStartTimeUnixNano : StandardGetSetter := {|
  Getter := fun tCtx st =>
    match GetDataPoint tCtx with
    | IsNumber dp => Ok (VInt64 (timestampToNano (NDP.StartTimestamp dp)))
    | IsHistogram dp => Ok (VInt64 (timestampToNano (HDP.StartTimestamp dp)))
    | IsExponentialHistogram dp => Ok (VInt64 (timestampToNano (EDP.StartTimestamp dp)))
    | IsSummary dp => Ok (VInt64 (timestampToNano (SDP.StartTimestamp dp)))
    | IsOther => Ok VNil
    end;
  Setter := fun tCtx val st =>
    match val with
    | VInt64 newTime =>
        match GetDataPoint tCtx with
        | IsNumber dp =>
            (None, withDataPoint tCtx
               (IsNumber (NDP.SetStartTimestamp dp (nanoToTimestamp newTime))), st)
        | IsHistogram dp =>
            (None, withDataPoint tCtx
               (IsHistogram (HDP.SetStartTimestamp dp (nanoToTimestamp newTime))), st)
        | IsExponentialHistogram dp =>
            (None, withDataPoint tCtx
               (IsExponentialHistogram
                  (EDP.SetStartTimestamp dp (nanoToTimestamp newTime))), st)
        | IsSummary dp =>
            (None, withDataPoint tCtx
               (IsSummary (SDP.SetStartTimestamp dp (nanoToTimestamp newTime))), st)
        | IsOther => (None, tCtx, st)
        end
    | _ => (None, tCtx, st)
    end
|}.

Definition accessTimeUnixNano : StandardGetSetter := {|
  Getter := fun tCtx st =>
    match GetDataPoint tCtx with
    | IsNumber dp => Ok (VInt64 (timestampToNano (NDP.Timestamp dp)))
    | IsHistogram dp => Ok (VInt64 (timestampToNano (HDP.Timestamp dp)))
    | IsExponentialHistogram dp => Ok (VInt64 (timestampToNano (EDP.Timestamp dp)))
    | IsSummary dp => Ok (VInt64 (timestampToNano (SDP.Timestamp dp)))
    | IsOther => Ok VNil
    end;
  Setter := fun tCtx val st =>
    match val with
    | VInt64 newTime =>
        match GetDataPoint tCtx with
        | IsNumber dp =>
            (None, withDataPoint tCtx
               (IsNumber (NDP.SetTimestamp dp (nanoToTimestamp newTime))), st)
        | IsHistogram dp =>
            (None, withDataPoint tCtx
               (IsHistogram (HDP.SetTimestamp dp (nanoToTimestamp newTime))), st)
        | IsExponentialHistogram dp =>
            (None, withDataPoint tCtx
               (IsExponentialHistogram (EDP.SetTimestamp dp (nanoToTimestamp newTime))), st)
        | IsSummary dp =>
            (None, withDataPoint tCtx
               (IsSummary (SDP.SetTimestamp dp (nanoToTimestamp newTime))), st)
        | IsOther => (None, tCtx, st)
        end
    | _ => (None, tCtx, st)
    end
|}.

Definition accessDoubleValue : StandardGetSetter := {|
  Getter := fun tCtx st =>
    match GetDataPoint tCtx with
    | IsNumber numberDataPoint => Ok (VFloat64 (NDP.DoubleValue numberDataPoint))
    | _ => Ok VNil
    end;
  Setter := fun tCtx val st =>
    match val with
    | VFloat64 newDouble =>
        match GetDataPoint tCtx with
        | IsNumber numberDataPoint =>
            (None, withDataPoint tCtx
               (IsNumber (NDP.SetDoubleValue numberDataPoint newDouble)), st)
        | _ => (None, tCtx, st)
        end
    | _ => (None, tCtx, st)
    end
|}.

Definition accessIntValue : StandardGetSetter := {|
  Getter := fun tCtx st =>
    match GetDataPoint tCtx with
    | IsNumber numberDataPoint => Ok (VInt64 (NDP.IntValue numberDataPoint))
    | _ => Ok VNil
    end;
  Setter := fun tCtx val st =>
    match val with
    | VInt64 newInt =>
        match GetDataPoint tCtx with
        | IsNumber numberDataPoint =>
            (None, withDataPoint tCtx
               (IsNumber (NDP.SetIntValue numberDataPoint newInt)), st)
        | _ => (None, tCtx, st)
        end
    | _ => (None, tCtx, st)
    end
|}.

Definition accessExemplars : StandardGetSetter := {|
  Getter := fun tCtx st =>
    match GetDataPoint tCtx with
    | IsNumber dp => Ok (VExemplarSlice (NDP.Exemplars dp))
    | IsHistogram dp => Ok (VExemplarSlice (HDP.Exemplars dp))
    | IsExponentialHistogram dp => Ok (VExemplarSlice (EDP.Exemplars dp))
    | _ => Ok VNil
    end;
  Setter := fun tCtx val st =>
    match val with
    | VExemplarSlice newExemplars =>
        match GetDataPoint tCtx with
        | IsNumber dp =>
            (None, withDataPoint tCtx (IsNumber (NDP.SetExemplars dp newExemplars)), st)
        | IsHistogram dp =>
            (None, withDataPoint tCtx (IsHistogram (HDP.SetExemplars dp newExemplars)), st)
        | IsExponentialHistogram dp =>
            (None, withDataPoint tCtx
               (IsExponentialHistogram (EDP.SetExemplars dp newExemplars)), st)
        | _ => (None, tCtx, st)
        end
    | _ => (None, tCtx, st)
    end
|}.

Definition accessFlags : StandardGetSetter := {|
  Getter := fun tCtx st =>
    match GetDataPoint tCtx with
    | IsNumber dp => Ok (VInt64 (Int.int64 (NDP.Flags dp)))
    | IsHistogram dp => Ok (VInt64 (Int.int64 (HDP.Flags dp)))
    | IsExponentialHistogram dp => Ok (VInt64 (Int.int64 (EDP.Flags dp)))
    | IsSummary dp => Ok (VInt64 (Int.int64 (SDP.Flags dp)))
    | IsOther => Ok VNil
    end;
  Setter := fun tCtx val st =>
    match val with
    | VInt64 newFlags =>
        match GetDataPoint tCtx with
        | IsNumber dp =>
            (None, withDataPoint tCtx
               (IsNumber (NDP.SetFlags dp (Int.uint32 newFlags))), st)
        | IsHistogram dp =>
            (None, withDataPoint tCtx
               (IsHistogram (HDP.SetFlags dp (Int.uint32 newFlags))), st)
        | IsExponentialHistogram dp =>
            (None, withDataPoint tCtx
               (IsExponentialHistogram (EDP.SetFlags dp (Int.uint32 newFlags))), st)
        | IsSummary dp =>
            (None, withDataPoint tCtx
               (IsSummary (SDP.SetFlags dp (Int.uint32 newFlags))), st)
        | IsOther => (None, tCtx, st)
        end
    | _ => (None, tCtx, st)
    end
|}.

Definition accessCount : StandardGetSetter := {|
  Getter := fun tCtx st =>
    match GetDataPoint tCtx with
    | IsHistogram dp => Ok (VInt64 (Int.int64 (HDP.Count dp)))
    | IsExponentialHistogram dp => Ok (VInt64 (Int.int64 (EDP.Count dp)))
    | IsSummary dp => Ok (VInt64 (Int.int64 (SDP.Count dp)))
    | _ => Ok VNil
    end;
  Setter := fun tCtx val st =>
    match val with
    | VInt64 newCount =>
        match GetDataPoint tCtx with
        | IsHistogram dp =>
            (None, withDataPoint tCtx
               (IsHistogram (HDP.SetCount dp (Int.uint64 newCount))), st)
        | IsExponentialHistogram dp =>
            (None, withDataPoint tCtx
               (IsExponentialHistogram (EDP.SetCount dp (Int.uint64 newCount))), st)
        | IsSummary dp =>
            (None, withDataPoint tCtx
               (IsSummary (SDP.SetCount dp (Int.uint64 newCount))), st)
        | _ => (None, tCtx, st)
        end
    | _ => (None, tCtx, st)
    end
|}.

Definition accessSum : StandardGetSetter := {|
  Getter := fun tCtx st =>
    match GetDataPoint tCtx with
    | IsHistogram dp => Ok (VFloat64 (HDP.Sum dp))
    | IsExponentialHistogram dp => Ok (VFloat64 (EDP.Sum dp))
    | IsSummary dp => Ok (VFloat64 (SDP.Sum dp))
    | _ => Ok VNil
    end;
  Setter := fun tCtx val st =>
    match val with
    | VFloat64 newSum =>
        match GetDataPoint tCtx with
        | IsHistogram dp =>
            (None, withDataPoint tCtx (IsHistogram (HDP.SetSum dp newSum)), st)
        | IsExponentialHistogram dp =>
            (None, withDataPoint tCtx
               (IsExponentialHistogram (EDP.SetSum dp newSum)), st)
        | IsSummary dp =>
            (None, withDataPoint tCtx (IsSummary (SDP.SetSum dp newSum)), st)
        | _ => (None, tCtx, st)
        end
    | _ => (None, tCtx, st)
    end
|}.

Definition accessExplicitBounds : StandardGetSetter := {|
  Getter := fun tCtx st =>
    match GetDataPoint tCtx with
    | IsHistogram histogramDataPoint =>
        Ok (VFloat64Slice (HDP.ExplicitBounds histogramDataPoint))
    | _ => Ok VNil
    end;
  Setter := fun tCtx val st =>
    match val with
    | VFloat64Slice newExplicitBounds =>
        match GetDataPoint tCtx with
        | IsHistogram histogramDataPoint =>
            (None, withDataPoint tCtx
               (IsHistogram (HDP.SetExplicitBounds histogramDataPoint newExplicitBounds)),
             st)
        | _ => (None, tCtx, st)
        end
    | _ => (None, tCtx, st)
    end
|}.

Definition accessBucketCounts : StandardGetSetter := {|
  Getter := fun tCtx st =>
    match GetDataPoint tCtx with
    | IsHistogram histogramDataPoint =>
        Ok (VUint64Slice (HDP.BucketCounts histogramDataPoint))
    | _ => Ok VNil
    end;
  Setter := fun tCtx val st =>
    match val with
    | VUint64Slice newBucketCount =>
        match GetDataPoint tCtx with
        | IsHistogram histogramDataPoint =>
            (None, withDataPoint tCtx
               (IsHistogram (HDP.SetBucketCounts histogramDataPoint newBucketCount)), st)
        | _ => (None, tCtx, st)
        end
    | _ => (None, tCtx, st)
    end
|}.

Definition accessScale : StandardGetSetter := {|
  Getter := fun tCtx st =>
    match GetDataPoint tCtx with
    | IsExponentialHistogram expoHistogramDataPoint =>
        Ok (VInt64 (Int.int64 (EDP.Scale expoHistogramDataPoint)))
    | _ => Ok VNil
    end;
  Setter := fun tCtx val st =>
    match val with
    | VInt64 newScale =>
        match GetDataPoint tCtx with
        | IsExponentialHistogram expoHistogramDataPoint =>
            (None, withDataPoint tCtx
               (IsExponentialHistogram
                  (EDP.SetScale expoHistogramDataPoint (Int.int32 newScale))), st)
        | _ => (None, tCtx, st)
        end
    | _ => (None, tCtx, st)
    end
|}.

Definition accessZeroCount : StandardGetSetter := {|
  Getter := fun tCtx st =>
    match GetDataPoint tCtx with
    | IsExponentialHistogram expoHistogramDataPoint =>
        Ok (VInt64 (Int.int64 (EDP.ZeroCount expoHistogramDataPoint)))
    | _ => Ok VNil
    end;
  Setter := fun tCtx val st =>
    match val with
    | VInt64 newZeroCount =>
        match GetDataPoint tCtx with
        | IsExponentialHistogram expoHistogramDataPoint =>
            (None, withDataPoint tCtx
               (IsExponentialHistogram
                  (EDP.SetZeroCount expoHistogramDataPoint (Int.uint64 newZeroCount))), st)
        | _ => (None, tCtx, st)
        end
    | _ => (None, tCtx, st)
    end
|}.

Definition accessPositive : StandardGetSetter := {|
  Getter := fun tCtx st =>
    match GetDataPoint tCtx with
    | IsExponentialHistogram expoHistogramDataPoint =>
        Ok (VBuckets (EDP.Positive expoHistogramDataPoint))
    | _ => Ok VNil
    end;
  Setter := fun tCtx val st =>
    match val with
    | VBuckets newPositive =>
        match GetDataPoint tCtx with
        | IsExponentialHistogram expoHistogramDataPoint =>
            (None, withDataPoint tCtx
               (IsExponentialHistogram
                  (EDP.SetPositive expoHistogramDataPoint
                     (EB.CopyTo newPositive (EDP.Positive expoHistogramDataPoint)))), st)
        | _ => (None, tCtx, st)
        end
    | _ => (None, tCtx, st)
    end
|}.

Definition accessPositiveOffset : StandardGetSetter := {|
  Getter := fun tCtx st =>
    match GetDataPoint tCtx with
    | IsExponentialHistogram expoHistogramDataPoint =>
        Ok (VInt64 (Int.int64 (EB.Offset (EDP.Positive expoHistogramDataPoint))))
    | _ => Ok VNil
    end;
  Setter := fun tCtx val st =>
    match val with
    | VInt64 newPositiveOffset =>
        match GetDataPoint tCtx with
        | IsExponentialHistogram expoHistogramDataPoint =>
            (None, withDataPoint tCtx
               (IsExponentialHistogram
                  (EDP.SetPositive expoHistogramDataPoint
                     (EB.SetOffset (EDP.Positive expoHistogramDataPoint)
                        (Int.int32 newPositiveOffset)))), st)
        | _ => (None, tCtx, st)
        end
    | _ => (None, tCtx, st)
    end
|}.

Definition accessPositiveBucketCounts : StandardGetSetter := {|
  Getter := fun tCtx st =>
    match GetDataPoint tCtx with
    | IsExponentialHistogram expoHistogramDataPoint =>
        Ok (VUint64Slice (EB.BucketCounts (EDP.Positive expoHistogramDataPoint)))
    | _ => Ok VNil
    end;
  Setter := fun tCtx val st =>
    match val with
    | VUint64Slice newPositiveBucketCounts =>
        match GetDataPoint tCtx with
        | IsExponentialHistogram expoHistogramDataPoint =>
            (None, withDataPoint tCtx
               (IsExponentialHistogram
                  (EDP.SetPositive expoHistogramDataPoint
                     (EB.SetBucketCounts (EDP.Positive expoHistogramDataPoint)
                        newPositiveBucketCounts))), st)
        | _ => (None, tCtx, st)
        end
    | _ => (None, tCtx, st)
    end
|}.

Definition accessNegative : StandardGetSetter := {|
  Getter := fun tCtx st =>
    match GetDataPoint tCtx with
    | IsExponentialHistogram expoHistogramDataPoint =>
        Ok (VBuckets (EDP.Negative expoHistogramDataPoint))
    | _ => Ok VNil
    end;
  Setter := fun tCtx val st =>
    match val with
    | VBuckets newNegative =>
        match GetDataPoint tCtx with
        | IsExponentialHistogram expoHistogramDataPoint =>
            (None, withDataPoint tCtx
               (IsExponentialHistogram
                  (EDP.SetNegative expoHistogramDataPoint
                     (EB.CopyTo newNegative (EDP.Negative expoHistogramDataPoint)))), st)
        | _ => (None, tCtx, st)
        end
    | _ => (None, tCtx, st)
    end
|}.

Definition accessNegativeOffset : StandardGetSetter := {|
  Getter := fun tCtx st =>
    match GetDataPoint tCtx with
    | IsExponentialHistogram expoHistogramDataPoint =>
        Ok (VInt64 (Int.int64 (EB.Offset (EDP.Negative expoHistogramDataPoint))))
    | _ => Ok VNil
    end;
  Setter := fun tCtx val st =>
    match val with
    | VInt64 newNegativeOffset =>
        match GetDataPoint tCtx with
        | IsExponentialHistogram expoHistogramDataPoint =>
            (None, withDataPoint tCtx
               (IsExponentialHistogram
                  (EDP.SetNegative expoHistogramDataPoint
                     (EB.SetOffset (EDP.Negative expoHistogramDataPoint)
                        (Int.int32 newNegativeOffset)))), st)
        | _ => (None, tCtx, st)
        end
    | _ => (None, tCtx, st)
    end
|}.

Definition accessNegativeBucketCounts : StandardGetSetter := {|
  Getter := fun tCtx st =>
    match GetDataPoint tCtx with
    | IsExponentialHistogram expoHistogramDataPoint =>
        Ok (VUint64Slice (EB.BucketCounts (EDP.Negative expoHistogramDataPoint)))
    | _ => Ok VNil
    end;
  Setter := fun tCtx val st =>
    match val with
    | VUint64Slice newNegativeBucketCounts =>
        match GetDataPoint tCtx with
        | IsExponentialHistogram expoHistogramDataPoint =>
            (None, withDataPoint tCtx
               (IsExponentialHistogram
                  (EDP.SetNegative expoHistogramDataPoint
                     (EB.SetBucketCounts (EDP.Negative expoHistogramDataPoint)
                        newNegativeBucketCounts))), st)
        | _ => (None, tCtx, st)
        end
    | _ => (None, tCtx, st)
    end
|}.

Definition accessQuantileValues : StandardGetSetter := {|
  Getter := fun tCtx st =>
    match GetDataPoint tCtx with
    | IsSummary summaryDataPoint =>
        Ok (VValueAtQuantileSlice (SDP.QuantileValues summaryDataPoint))
    | _ => Ok VNil
    end;
  Setter := fun tCtx val st =>
    match val with
    | VValueAtQuantileSlice newQuantileValues =>
        match GetDataPoint tCtx with
        | IsSummary summaryDataPoint =>
            (None, withDataPoint tCtx
               (IsSummary (SDP.SetQuantileValues summaryDataPoint newQuantileValues)), st)
        | _ => (None, tCtx, st)
        end
    | _ => (None, tCtx, st)
    end
|}.

(** ** Enum symbols and path resolution *)

Section Resolution.

(** What this package takes from [ottlcommon]: the shared symbol table and
    the resolvers of the [resource], [instrumentation_scope] and
    [metric] sub-paths. *)
Variable MetricSymbolTable : gmap string ottl.Enum.
Variable ResourcePathGetSetter : list ottl.Field -> result StandardGetSetter.
Variable ScopePathGetSetter : list ottl.Field -> result StandardGetSetter.
Variable MetricPathGetSetter : list ottl.Field -> result StandardGetSetter.

(** The literal [symbolTable] starts from. *)
Definition symbolTableLiteral : gmap string ottl.Enum :=
  <["FLAG_NO_RECORDED_VALUE" := 1]> (<["FLAG_NONE" := 0]> ∅).

(** [init]: every entry of the shared table is assigned into the table. *)
Definition init (table : gmap string ottl.Enum) : gmap string ottl.Enum :=
  map_fold (fun k v acc => <[k := v]> acc) table MetricSymbolTable.

(** [symbolTable] as every call of [parseEnum] finds it. *)
Definition symbolTable : gmap string ottl.Enum := init symbolTableLiteral.

Definition parseEnum (val : option ottl.EnumSymbol) : result ottl.Enum :=
  match val with
  | Some sym =>
      match symbolTable !! sym with
      | Some enum => Ok enum
      | None => Err (ErrEnumSymbolNotFound sym)
      end
  | None => Err ErrEnumSymbolNotProvided
  end.

Definition newPathGetSetter (path : list ottl.Field) : result StandardGetSetter :=
  match path with
  | [] => Err PanicIndexOutOfRange
  | path0 :: rest =>
      let name := ottl.Name path0 in
      if String.eqb name "cache" then
        match ottl.MapKey path0 with
        | None => Ok accessCache
        | Some mapKey => Ok (accessCacheKey mapKey)
        end
      else if String.eqb name "resource" then ResourcePathGetSetter rest
      else if String.eqb name "instrumentation_scope" then ScopePathGetSetter rest
      else if String.eqb name "metric" then MetricPathGetSetter rest
      else if String.eqb name "attributes" then
        match ottl.MapKey path0 with
        | None => Ok accessAttributes
        | Some mapKey => Ok (accessAttributesKey mapKey)
        end
      else if String.eqb name "start_time_unix_nano" then Ok accessStartTimeUnixNano
      else if String.eqb name "time_unix_nano" then Ok accessTimeUnixNano
      else if String.eqb name "value_double" then Ok accessDoubleValue
      else if String.eqb name "value_int" then Ok accessIntValue
      else if String.eqb name "exemplars" then Ok accessExemplars
      else if String.eqb name "flags" then Ok accessFlags
      else if String.eqb name "count" then Ok accessCount
      else if String.eqb name "sum" then Ok accessSum
      else if String.eqb name "bucket_counts" then Ok accessBucketCounts
      else if String.eqb name "explicit_bounds" then Ok accessExplicitBounds
      else if String.eqb name "scale" then Ok accessScale
      else if String.eqb name "zero_count" then Ok accessZeroCount
      else if String.eqb name "positive" then
        match rest with
        | [] => Ok accessPositive
        | path1 :: _ =>
            if String.eqb (ottl.Name path1) "offset" then Ok accessPositiveOffset
            else if String.eqb (ottl.Name path1) "bucket_counts"
            then Ok accessPositiveBucketCounts
            else Err (ErrInvalidPathExpression path)
        end
      else if String.eqb name "negative" then
        match rest with
        | [] => Ok accessNegative
        | path1 :: _ =>
            if String.eqb (ottl.Name path1) "offset" then Ok accessNegativeOffset
            else if String.eqb (ottl.Name path1) "bucket_counts"
            then Ok accessNegativeBucketCounts
            else Err (ErrInvalidPathExpression path)
        end
      else if String.eqb name "quantile_values" then Ok accessQuantileValues
      else Err (ErrInvalidPathExpression path)
  end.

Definition parsePath (val : option ottl.Path) : result StandardGetSetter :=
  match val with
  | Some p =>
      match ottl.Fields p with
      | [] => Err (ErrBadPath val)
      | _ :: _ => newPathGetSetter (ottl.Fields p)
      end
  | None => Err (ErrBadPath val)
  end.

End Resolution.

(** ** The specification's view of fields, variants and types *)

Module View.

(** The closed set of record variants. *)
Inductive Variant : Type := Number | Histogram | ExponentialHistogram | Summary.

Definition variantOf (dp : DataPoint) : option Variant :=
  match dp with
  | IsNumber _ => Some Number
  | IsHistogram _ => Some Histogram
  | IsExponentialHistogram _ => Some ExponentialHistogram
  | IsSummary _ => Some Summary
  | IsOther => None
  end.

(** The locations a path of this package can address. *)
Inductive FieldId : Type :=
| f_cache
| f_cache_key (k : string)
| f_attributes
| f_attributes_key (k : string)
| f_start_time_unix_nano
| f_time_unix_nano
| f_value_double
| f_value_int
| f_exemplars
| f_flags
| f_count
| f_sum
| f_bucket_counts
| f_explicit_bounds
| f_scale
| f_zero_count
| f_positive
| f_positive_offset
| f_positive_bucket_counts
| f_negative
| f_negative_offset
| f_negative_bucket_counts
| f_quantile_values.

(** Names resolving directly to a leaf. *)
Definition leaves : list (string * FieldId) :=
  [ ("start_time_unix_nano", f_start_time_unix_nano);
    ("time_unix_nano", f_time_unix_nano);
    ("value_double", f_value_double);
    ("value_int", f_value_int);
    ("exemplars", f_exemplars);
    ("flags", f_flags);
    ("count", f_count);
    ("sum", f_sum);
    ("bucket_counts", f_bucket_counts);
    ("explicit_bounds", f_explicit_bounds);
    ("scale", f_scale);
    ("zero_count", f_zero_count);
    ("quantile_values", f_quantile_values) ].

(** Keyed members: whole map, single entry. *)
Definition keyed : list (string * (FieldId * (string -> FieldId))) :=
  [ ("cache", (f_cache, f_cache_key));
    ("attributes", (f_attributes, f_attributes_key)) ].

(** Two-level substructures: whole, offset, bucket counts. *)
Definition substructures : list (string * (FieldId * FieldId * FieldId)) :=
  [ ("positive", (f_positive, f_positive_offset, f_positive_bucket_counts));
    ("negative", (f_negative, f_negative_offset, f_negative_bucket_counts)) ].

(** Names handed to the shared sub-resolvers. *)
Definition delegated : list string := ["resource"; "instrumentation_scope"; "metric"].

Fixpoint assoc {A : Type} (name : string) (table : list (string * A)) : option A :=
  match table with
  | [] => None
  | (k, a) :: rest => if String.eqb name k then Some a else assoc name rest
  end.

(** The location a path addresses, read off the tables above. *)
Definition fieldOfPath (path : list ottl.Field) : option FieldId :=
  match path with
  | [] => None
  | path0 :: rest =>
      match assoc (ottl.Name path0) keyed with
      | Some (whole, entry) =>
          Some (match ottl.MapKey path0 with None => whole | Some k => entry k end)
      | None =>
      match assoc (ottl.Name path0) leaves with
      | Some f => Some f
      | None =>
      match assoc (ottl.Name path0) substructures with
      | Some (whole, off, counts) =>
          match rest with
          | [] => Some whole
          | path1 :: _ =>
              if String.eqb (ottl.Name path1) "offset" then Some off
              else if String.eqb (ottl.Name path1) "bucket_counts" then Some counts
              else None
          end
      | None => None
      end end end
  end.

(** The first-segment names of the dispatch table. *)
Definition dispatchNames : list string :=
  map fst keyed ++ delegated ++ map fst leaves ++ map fst substructures.

Definition substructureNames : list string := ["offset"; "bucket_counts"].

Definition isDataPointField (f : FieldId) : bool :=
  match f with
  | f_cache | f_cache_key _ => false
  | _ => true
  end.









(** Dynamic types, and the type each field's Set expects; the keyed
    entries take any value. *)
Inductive GoType : Type :=
| TyNil | TyString | TyBool | TyInt64 | TyFloat64 | TyBytes | TyMap | TySlice
| TyFloat64Slice | TyUint64Slice | TyExemplarSlice | TyBuckets
| TyValueAtQuantileSlice | TyInt | TyUint64.

Definition typeOf (val : any) : GoType :=
  match val with
  | VNil => TyNil
  | VString _ => TyString
  | VBool _ => TyBool
  | VInt64 _ => TyInt64
  | VFloat64 _ => TyFloat64
  | VBytes _ => TyBytes
  | VMap _ => TyMap
  | VSlice _ => TySlice
  | VFloat64Slice _ => TyFloat64Slice
  | VUint64Slice _ => TyUint64Slice
  | VExemplarSlice _ => TyExemplarSlice
  | VBuckets _ => TyBuckets
  | VValueAtQuantileSlice _ => TyValueAtQuantileSlice
  | VInt _ => TyInt
  | VUint64 _ => TyUint64
  end.

Definition expectedType (f : FieldId) : option GoType :=
  match f with
  | f_cache | f_attributes => Some TyMap
  | f_cache_key _ | f_attributes_key _ => None
  | f_start_time_unix_nano | f_time_unix_nano | f_value_int | f_flags | f_count
  | f_scale | f_zero_count | f_positive_offset | f_negative_offset => Some TyInt64
  | f_value_double | f_sum => Some TyFloat64
  | f_exemplars => Some TyExemplarSlice
  | f_bucket_counts | f_positive_bucket_counts | f_negative_bucket_counts =>
      Some TyUint64Slice
  | f_explicit_bounds => Some TyFloat64Slice
  | f_positive | f_negative => Some TyBuckets
  | f_quantile_values => Some TyValueAtQuantileSlice
  end.

(** Reinterpretations between widths, in the words of the specification. *)
Definition reinterpretAsSigned64 (u : Z) : Z :=
  if u <? 2 ^ 63 then u else u - 2 ^ 64.
Definition reinterpretAsUnsigned64 (i : Z) : Z :=
  if i <? 0 then i + 2 ^ 64 else i.
Definition truncateToInt32 (i : Z) : Z :=
  let low := i mod 2 ^ 32 in if low <? 2 ^ 31 then low else low - 2 ^ 32.

(** Integer members within the range of their Go type. *)
Definition wfBuckets (b : EB.t) : Prop := Int.is_int32 (EB.Offset b).

Definition wfDataPoint (dp : DataPoint) : Prop :=
  match dp with
  | IsNumber dp =>
      Int.is_uint64 (NDP.StartTimestamp dp) /\ Int.is_uint64 (NDP.Timestamp dp) /\
      Int.is_uint32 (NDP.Flags dp)
  | IsHistogram dp =>
      Int.is_uint64 (HDP.StartTimestamp dp) /\ Int.is_uint64 (HDP.Timestamp dp) /\
      Int.is_uint32 (HDP.Flags dp) /\ Int.is_uint64 (HDP.Count dp)
  | IsExponentialHistogram dp =>
      Int.is_uint64 (EDP.StartTimestamp dp) /\ Int.is_uint64 (EDP.Timestamp dp) /\
      Int.is_uint32 (EDP.Flags dp) /\ Int.is_uint64 (EDP.Count dp) /\
      Int.is_int32 (EDP.Scale dp) /\ Int.is_uint64 (EDP.ZeroCount dp) /\
      wfBuckets (EDP.Positive dp) /\ wfBuckets (EDP.Negative dp)
  | IsSummary dp =>
      Int.is_uint64 (SDP.StartTimestamp dp) /\ Int.is_uint64 (SDP.Timestamp dp) /\
      Int.is_uint32 (SDP.Flags dp) /\ Int.is_uint64 (SDP.Count dp)
  | IsOther => True
  end.

(** A context is well formed in a store when its integers are in range
    and its cache is allocated. *)
Definition wfContext (tCtx : TransformContext) (st : Store) : Prop :=
  wfDataPoint (dataPoint tCtx) /\ is_Some (st !! cache tCtx).


Definition isSome {A : Type} (o : option A) : bool :=
  match o with Some _ => true | None => false end.


(** The integer a record stores under an integer-typed member, as stored. *)
Definition storedInteger (f : FieldId) (dp : DataPoint) : option Z :=
  match dp with
  | IsNumber dp =>
      match f with f_flags => Some (NDP.Flags dp) | _ => None end
  | IsHistogram dp =>
      match f with
      | f_flags => Some (HDP.Flags dp)
      | f_count => Some (HDP.Count dp)
      | _ => None
      end
  | IsExponentialHistogram dp =>
      match f with
      | f_flags => Some (EDP.Flags dp)
      | f_count => Some (EDP.Count dp)
      | f_zero_count => Some (EDP.ZeroCount dp)
      | f_scale => Some (EDP.Scale dp)
      | f_positive_offset => Some (EB.Offset (EDP.Positive dp))
      | f_negative_offset => Some (EB.Offset (EDP.Negative dp))
      | _ => None
      end
  | IsSummary dp =>
      match f with
      | f_flags => Some (SDP.Flags dp)
      | f_count => Some (SDP.Count dp)
      | _ => None
      end
  | IsOther => None
  end.

(** Members read as unsigned, written as unsigned 64-bit, written as 32-bit. *)
Definition readsUnsigned (f : FieldId) : bool :=
  match f with f_count | f_zero_count | f_flags => true | _ => false end.
Definition writesUnsigned64 (f : FieldId) : bool :=
  match f with f_count | f_zero_count => true | _ => false end.
Definition writesInt32 (f : FieldId) : bool :=
  match f with f_scale | f_positive_offset | f_negative_offset => true | _ => false end.


End View.

(** The accessor bound to each location. *)
Definition accessorOf (f : View.FieldId) : StandardGetSetter :=
  match f with
  | View.f_cache => accessCache
  | View.f_cache_key k => accessCacheKey k
  | View.f_attributes => accessAttributes
  | View.f_attributes_key k => accessAttributesKey k
  | View.f_start_time_unix_nano => accessStartTimeUnixNano
  | View.f_time_unix_nano => accessTimeUnixNano
  | View.f_value_double => accessDoubleValue
  | View.f_value_int => accessIntValue
  | View.f_exemplars => accessExemplars
  | View.f_flags => accessFlags
  | View.f_count => accessCount
  | View.f_sum => accessSum
  | View.f_bucket_counts => accessBucketCounts
  | View.f_explicit_bounds => accessExplicitBounds
  | View.f_scale => accessScale
  | View.f_zero_count => accessZeroCount
  | View.f_positive => accessPositive
  | View.f_positive_offset => accessPositiveOffset
  | View.f_positive_bucket_counts => accessPositiveBucketCounts
  | View.f_negative => accessNegative
  | View.f_negative_offset => accessNegativeOffset
  | View.f_negative_bucket_counts => accessNegativeBucketCounts
  | View.f_quantile_values => accessQuantileValues
  end.

(** ** Sample data *)

Module Sample.

(** A path of unkeyed segments. *)
Definition path (names : list string) : list ottl.Field :=
  map (fun n => ottl.mkField n None) names.

(** Sub-resolvers that resolve nothing. *)
Definition noResolver (rest : list ottl.Field) : result StandardGetSetter :=
  Err (ErrDelegated "unresolved").


(** A shared table that also defines a flag name. *)
Definition collidingSymbols : gmap string ottl.Enum := <["FLAG_NONE" := 7]> ∅.

Definition histogram : HDP.t :=
  HDP.mk [] 0 0 10 (Some 5%float) [1; 2; 3] [0%float; 1%float] [] 0 None None.



Definition expoHistogram : EDP.t :=
  EDP.mk [("host", pcommon.ValueStr "a")] 1 2 (2 ^ 63) (Some 5%float) 3 4
    (EB.mk 1 [1; 2]) (EB.mk (-1) [3]) [] 1 None None.

Definition summary : SDP.t :=
  SDP.mk [] 0 0 7 2%float [pmetric.mkValueAtQuantile 0.5%float 1%float] 0.

Definition contextOf (dp : DataPoint) : TransformContext * Store :=
  NewTransformContext dp 1%positive 1%positive 1%positive 1%positive ∅.

End Sample.

(** ** What a Set accepts, what it stores, and which fields share storage *)

Module Laws.

Definition GoType_eqb (a b : View.GoType) : bool :=
  match a, b with
  | View.TyNil, View.TyNil | View.TyString, View.TyString
  | View.TyBool, View.TyBool | View.TyInt64, View.TyInt64
  | View.TyFloat64, View.TyFloat64 | View.TyBytes, View.TyBytes
  | View.TyMap, View.TyMap | View.TySlice, View.TySlice
  | View.TyFloat64Slice, View.TyFloat64Slice
  | View.TyUint64Slice, View.TyUint64Slice
  | View.TyExemplarSlice, View.TyExemplarSlice
  | View.TyBuckets, View.TyBuckets
  | View.TyValueAtQuantileSlice, View.TyValueAtQuantileSlice
  | View.TyInt, View.TyInt | View.TyUint64, View.TyUint64 => true
  | _, _ => false
  end.

(** The Set of a field takes the value: it has the type the setter asserts,
    or, for a keyed entry, a type the map helper converts. *)
Definition accepts (f : View.FieldId) (val : any) : bool :=
  match View.expectedType f with
  | Some ty => GoType_eqb (View.typeOf val) ty
  | None => View.isSome (ottlcommon.SetValue val)
  end.




Definition FieldId_eqb (f g : View.FieldId) : bool :=
  match f, g with
  | View.f_cache, View.f_cache => true
  | View.f_cache_key k, View.f_cache_key k' => String.eqb k k'
  | View.f_attributes, View.f_attributes => true
  | View.f_attributes_key k, View.f_attributes_key k' => String.eqb k k'
  | View.f_start_time_unix_nano, View.f_start_time_unix_nano => true
  | View.f_time_unix_nano, View.f_time_unix_nano => true
  | View.f_value_double, View.f_value_double => true
  | View.f_value_int, View.f_value_int => true
  | View.f_exemplars, View.f_exemplars => true
  | View.f_flags, View.f_flags => true
  | View.f_count, View.f_count => true
  | View.f_sum, View.f_sum => true
  | View.f_bucket_counts, View.f_bucket_counts => true
  | View.f_explicit_bounds, View.f_explicit_bounds => true
  | View.f_scale, View.f_scale => true
  | View.f_zero_count, View.f_zero_count => true
  | View.f_positive, View.f_positive => true
  | View.f_positive_offset, View.f_positive_offset => true
  | View.f_positive_bucket_counts, View.f_positive_bucket_counts => true
  | View.f_negative, View.f_negative => true
  | View.f_negative_offset, View.f_negative_offset => true
  | View.f_negative_bucket_counts, View.f_negative_bucket_counts => true
  | View.f_quantile_values, View.f_quantile_values => true
  | _, _ => false
  end.

(** The whole a location is part of; the two alternatives of a number
    point's value share one slot. *)
Definition whole (f : View.FieldId) : View.FieldId :=
  match f with
  | View.f_cache_key _ => View.f_cache
  | View.f_attributes_key _ => View.f_attributes
  | View.f_value_int => View.f_value_double
  | View.f_positive_offset | View.f_positive_bucket_counts => View.f_positive
  | View.f_negative_offset | View.f_negative_bucket_counts => View.f_negative
  | _ => f
  end.

(** Two locations share no storage: they lie in different wholes, or are
    different proper parts of one. *)
Definition independent (f g : View.FieldId) : bool :=
  if FieldId_eqb (whole f) (whole g)
  then negb (FieldId_eqb f (whole f)) && negb (FieldId_eqb g (whole g))
       && negb (FieldId_eqb f g)
  else true.

(** A supplied bucket structure with its offset in range. *)
Definition wfValue (val : any) : Prop :=
  match val with
  | VBuckets b => View.wfBuckets b
  | _ => True
  end.

End Laws.

(** ** windows: the handle of an event *)

Module windows.

(** [Event] wraps a [uintptr] handle; zero means closed. *)
Record Event : Type := mkEvent { handle : Z }.

Definition NewEvent (handle : Z) : Event := mkEvent handle.

Inductive CloseError (SysError : Type) : Type :=
| ErrCloseHandle (err : SysError).
Arguments ErrCloseHandle {SysError} err.

Section Syscalls.

(** The state of the event log service and the [evtClose] syscall, which is
    not under src/: it returns an error or nil and moves the service on. *)
Variable OS : Type.
Variable SysError : Type.
Variable evtClose : Z -> OS -> option SysError * OS.

(** [e.Close()]: the event is returned as the call leaves it. *)
Definition Close (e : Event) (os : OS) : option (CloseError SysError) * Event * OS :=
  if handle e =? 0 then (None, e, os)
  else
    match evtClose (handle e) os with
    | (Some err, os') => (Some (ErrCloseHandle err), e, os')
    | (None, os') => (None, mkEvent 0, os')
    end.

End Syscalls.

(** A service on which closing a handle succeeds once and fails after. *)
Definition sampleClose (h : Z) (closed : list Z) : option string * list Z :=
  if existsb (Z.eqb h) closed then (Some "invalid handle", closed)
  else (None, h :: closed).

End windows.

(** ** prometheusremotewrite: walking the metrics *)

Module prometheusremotewrite.

(** The data of a metric, a [oneof] whose tag is [metric.Type()]. *)
Inductive MetricData : Type :=
| DataEmpty
| DataGauge (dataPoints : list NDP.t)
| DataSum (dataPoints : list NDP.t) (temporality : Z) (monotonic : bool)
| DataHistogram (dataPoints : list HDP.t) (temporality : Z)
| DataExponentialHistogram (dataPoints : list EDP.t) (temporality : Z)
| DataSummary (dataPoints : list SDP.t).

Record Metric : Type := mkMetric { Name : string; Data : MetricData }.
Record ScopeMetrics : Type := mkScopeMetrics { Metrics : list Metric }.
Record ResourceMetrics : Type := mkResourceMetrics {
  Resource : pcommon.Resource;
  ScopeMetricsSlice : list ScopeMetrics
}.

Record Settings : Type := mkSettings {
  Namespace : string;
  ExternalLabels : gmap string string;
  DisableTargetInfo : bool;
  ExportCreatedMetric : bool
}.

(** The errors [FromMetrics] collects; [multierr.Append] keeps them in
    order and drops nil. *)
Inductive Error : Type :=
| ErrInvalidTemporality
| ErrEmptyDataPoints (name : string)
| ErrUnsupportedMetricType
| ErrDataPoint (msg : string).

Definition Append (errs : list Error) (err : option Error) : list Error :=
  match err with
  | Some e => errs ++ [e]
  | None => errs
  end.

Section Translation.

(** The time series and the helpers of this package that are not under
    src/; each helper that writes to the series map returns it. *)
Variable TimeSeries : Type.
Variable isValidAggregationTemporality : Metric -> bool.
Variable mostRecentTimestampInMetric : Metric -> pcommon.Timestamp.
Variable maxTimestamp : pcommon.Timestamp -> pcommon.Timestamp -> pcommon.Timestamp.
Variable BuildPromCompliantName : Metric -> string -> string.
Variable addSingleNumberDataPoint :
  NDP.t -> pcommon.Resource -> Metric -> Settings ->
  gmap string TimeSeries -> gmap string TimeSeries.
Variable addSingleHistogramDataPoint :
  HDP.t -> pcommon.Resource -> Metric -> Settings ->
  gmap string TimeSeries -> gmap string TimeSeries.
Variable addSingleExponentialHistogramDataPoint :
  string -> EDP.t -> pcommon.Resource -> Settings ->
  gmap string TimeSeries -> option Error * gmap string TimeSeries.
Variable addSingleSummaryDataPoint :
  SDP.t -> pcommon.Resource -> Metric -> Settings ->
  gmap string TimeSeries -> gmap string TimeSeries.
Variable addResourceTargetInfo :
  pcommon.Resource -> Settings -> pcommon.Timestamp ->
  gmap string TimeSeries -> gmap string TimeSeries.

Definition addNumberDataPointSlice (dataPoints : list NDP.t)
    (resource : pcommon.Resource) (metric : Metric) (settings : Settings)
    (tsMap : gmap string TimeSeries) : option Error * gmap string TimeSeries :=
  match dataPoints with
  | [] => (Some (ErrEmptyDataPoints (Name metric)), tsMap)
  | _ :: _ =>
      (None,
       fold_left (fun m dp => addSingleNumberDataPoint dp resource metric settings m)
         dataPoints tsMap)
  end.

(** The error the histogram, exponential-histogram and summary cases add
    for a metric without data points. *)
Definition emptyDataPoints {A : Type} (dataPoints : list A) (metric : Metric)
    : option Error :=
  match dataPoints with
  | [] => Some (ErrEmptyDataPoints (Name metric))
  | _ :: _ => None
  end.

(** The state the loops carry: series map, collected errors, most recent
    timestamp of the resource. *)
Definition State : Type := gmap string TimeSeries * list Error * pcommon.Timestamp.

(** The body of the loop over the metrics of one scope. *)
Definition metricStep (resource : pcommon.Resource) (settings : Settings)
    (s : State) (metric : Metric) : State :=
  let '(tsMap, errs, mostRecentTimestamp) := s in
  let mostRecentTimestamp :=
    maxTimestamp mostRecentTimestamp (mostRecentTimestampInMetric metric) in
  if negb (isValidAggregationTemporality metric)
  then (tsMap, Append errs (Some ErrInvalidTemporality), mostRecentTimestamp)
  else
    match Data metric with
    | DataGauge dataPoints | DataSum dataPoints _ _ =>
        let '(err, tsMap') :=
          addNumberDataPointSlice dataPoints resource metric settings tsMap in
        (tsMap', Append errs err, mostRecentTimestamp)
    | DataHistogram dataPoints _ =>
        (fold_left (fun m dp => addSingleHistogramDataPoint dp resource metric settings m)
           dataPoints tsMap,
         Append errs (emptyDataPoints dataPoints metric), mostRecentTimestamp)
    | DataExponentialHistogram dataPoints _ =>
        let errs0 := Append errs (emptyDataPoints dataPoints metric) in
        let name := BuildPromCompliantName metric (Namespace settings) in
        let '(tsMap', errs') :=
          fold_left
            (fun (acc : gmap string TimeSeries * list Error) dp =>
               let '(err, m) :=
                 addSingleExponentialHistogramDataPoint name dp resource settings (fst acc) in
               (m, Append (snd acc) err))
            dataPoints (tsMap, errs0) in
        (tsMap', errs', mostRecentTimestamp)
    | DataSummary dataPoints =>
        (fold_left (fun m dp => addSingleSummaryDataPoint dp resource metric settings m)
           dataPoints tsMap,
         Append errs (emptyDataPoints dataPoints metric), mostRecentTimestamp)
    | DataEmpty =>
        (tsMap, Append errs (Some ErrUnsupportedMetricType), mostRecentTimestamp)
    end.

(** The body of the loop over the resources. *)
Definition resourceStep (settings : Settings)
    (acc : gmap string TimeSeries * list Error) (resourceMetrics : ResourceMetrics)
    : gmap string TimeSeries * list Error :=
  let resource := Resource resourceMetrics in
  let '(tsMap, errs, mostRecentTimestamp) :=
    fold_left
      (fun s scopeMetrics => fold_left (metricStep resource settings) (Metrics scopeMetrics) s)
      (ScopeMetricsSlice resourceMetrics) (fst acc, snd acc, 0) in
  (addResourceTargetInfo resource settings mostRecentTimestamp tsMap, errs).

(** [FromMetrics(md, settings)], [md] given by its resource metrics. *)
Definition FromMetrics (md : list ResourceMetrics) (settings : Settings)
    : gmap string TimeSeries * list Error :=
  fold_left (resourceStep settings) md (∅, []).

(** All metrics of the input, in the order they are visited. *)
Definition allMetrics (md : list ResourceMetrics) : list Metric :=
  concat (map (fun rm => concat (map Metrics (ScopeMetricsSlice rm))) md).

(** The error a metric is dropped with before any of its points is added. *)
Definition droppedWith (metric : Metric) : option Error :=
  if negb (isValidAggregationTemporality metric) then Some ErrInvalidTemporality
  else
    match Data metric with
    | DataEmpty => Some ErrUnsupportedMetricType
    | DataGauge [] | DataSum [] _ _ | DataHistogram [] _
    | DataExponentialHistogram [] _ | DataSummary [] =>
        Some (ErrEmptyDataPoints (Name metric))
    | _ => None
    end.

End Translation.

End prometheusremotewrite.

(** ** Sample translation helpers *)

Module SampleRemoteWrite.

Module P := prometheusremotewrite.

(** Helpers that count, per metric name, the points added. *)
Definition bump (name : string) (tsMap : gmap string Z) : gmap string Z :=
  <[name := default 0 (tsMap !! name) + 1]> tsMap.

(** Only cumulative (2) sums and histograms are valid. *)
Definition isValid (metric : P.Metric) : bool :=
  match P.Data metric with
  | P.DataSum _ t _ | P.DataHistogram _ t | P.DataExponentialHistogram _ t => t =? 2
  | _ => true
  end.

Definition translate (md : list P.ResourceMetrics) : gmap string Z * list P.Error :=
  P.FromMetrics Z isValid (fun _ => 0) Z.max (fun metric ns => P.Name metric)
    (fun _ _ metric _ => bump (P.Name metric))
    (fun _ _ metric _ => bump (P.Name metric))
    (fun name _ _ _ tsMap => (None, bump name tsMap))
    (fun _ _ metric _ => bump (P.Name metric))
    (fun _ _ _ tsMap => tsMap)
    md (P.mkSettings "" ∅ true false).

Definition emptyGauge : list P.ResourceMetrics :=
  [P.mkResourceMetrics 1%positive
     [P.mkScopeMetrics [P.mkMetric "requests" (P.DataGauge [])]]].


End SampleRemoteWrite.

(** ** The timestamps a record stores *)

Module Times.

(** The [uint64] a record stores under a timestamp field. *)
Definition storedTimestamp (f : View.FieldId) (dp : DataPoint) : option pcommon.Timestamp :=
  match f with
  | View.f_start_time_unix_nano =>
      match dp with
      | IsNumber dp => Some (NDP.StartTimestamp dp)
      | IsHistogram dp => Some (HDP.StartTimestamp dp)
      | IsExponentialHistogram dp => Some (EDP.StartTimestamp dp)
      | IsSummary dp => Some (SDP.StartTimestamp dp)
      | IsOther => None
      end
  | View.f_time_unix_nano =>
      match dp with
      | IsNumber dp => Some (NDP.Timestamp dp)
      | IsHistogram dp => Some (HDP.Timestamp dp)
      | IsExponentialHistogram dp => Some (EDP.Timestamp dp)
      | IsSummary dp => Some (SDP.Timestamp dp)
      | IsOther => None
      end
  | _ => None
  end.

Definition lateNumber : NDP.t :=
  NDP.mk [] 0 (2 ^ 64 - 1) (pmetric.NumberInt 5) [] 0.

End Times.

(** * Properties *)

(** ** Conversions between integer widths *)

Section Integers.

Lemma int64_fixed z : Int.is_int64 z -> Int.int64 z = z.
Proof.
  unfold Int.is_int64, Int.int64, Int.two63, Int.two64. intros Hz.
  rewrite Z.mod_small by lia. lia.
Qed.

Lemma int64_range z : Int.is_int64 (Int.int64 z).
Proof.
  unfold Int.is_int64, Int.int64, Int.two63, Int.two64.
  pose proof (Z.mod_pos_bound (z + 2 ^ 63) (2 ^ 64)). lia.
Qed.

Lemma int64_absorb a b : Int.int64 (Int.int64 a + b) = Int.int64 (a + b).
Proof.
  unfold Int.int64, Int.two63, Int.two64. f_equal.
  replace ((a + 2 ^ 63) mod 2 ^ 64 - 2 ^ 63 + b + 2 ^ 63)
    with ((a + 2 ^ 63) mod 2 ^ 64 + b) by lia.
  rewrite Z.add_mod_idemp_l by lia. f_equal. lia.
Qed.

Lemma int64_of_uint64 u :
  Int.is_uint64 u -> Int.int64 u = View.reinterpretAsSigned64 u.
Proof.
  unfold Int.is_uint64, Int.int64, View.reinterpretAsSigned64, Int.two63, Int.two64.
  intros Hu. destruct (Z.ltb_spec u (2 ^ 63)).
  - rewrite Z.mod_small by lia. lia.
  - replace (u + 2 ^ 63) with (u - 2 ^ 63 + 1 * 2 ^ 64) by lia.
    rewrite Z.mod_add by lia. rewrite Z.mod_small by lia. lia.
Qed.

Lemma uint64_of_int64 i :
  Int.is_int64 i -> Int.uint64 i = View.reinterpretAsUnsigned64 i.
Proof.
  unfold Int.is_int64, Int.uint64, View.reinterpretAsUnsigned64, Int.two63, Int.two64.
  intros Hi. destruct (Z.ltb_spec i 0).
  - replace i with (i + 2 ^ 64 + (-1) * 2 ^ 64) at 1 by lia.
    rewrite Z.mod_add by lia. apply Z.mod_small. lia.
  - apply Z.mod_small. lia.
Qed.


Lemma int32_truncates z : Int.int32 z = View.truncateToInt32 z.
Proof.
  unfold Int.int32, View.truncateToInt32, Int.two32.
  pose proof (Z.mod_pos_bound z (2 ^ 32) ltac:(lia)) as Hb.
  pose proof (Z.div_mod z (2 ^ 32) ltac:(lia)) as Hd.
  destruct (Z.ltb_spec (z mod 2 ^ 32) (2 ^ 31)).
  - replace (z + 2 ^ 31) with (z mod 2 ^ 32 + 2 ^ 31 + (z / 2 ^ 32) * 2 ^ 32) by lia.
    rewrite Z.mod_add by lia. rewrite Z.mod_small by lia. lia.
  - replace (z + 2 ^ 31)
      with (z mod 2 ^ 32 - 2 ^ 31 + (z / 2 ^ 32 + 1) * 2 ^ 32) by lia.
    rewrite Z.mod_add by lia. rewrite Z.mod_small by lia. lia.
Qed.



(** [time.Unix(0, n).UnixNano()] gives [n] back for every [int64]. *)
Lemma UnixNano_Unix n : Int.is_int64 n -> time.UnixNano (time.Unix 0 n) = n.
Proof.
  intros Hn. unfold time.Unix.
  destruct (orb (n <? 0) (n >=? time.e9)) eqn:Hout.
  - pose proof (Z.quot_rem' n time.e9) as Hqr.
    assert (Hrem : - time.e9 < Z.rem n time.e9 < time.e9).
    { pose proof (Z.rem_bound_abs n time.e9 ltac:(unfold time.e9; lia)).
      unfold time.e9 in *. lia. }
    assert (Hq : Int.is_int64 (Z.quot n time.e9 * time.e9)).
    { unfold Int.is_int64, Int.two63, time.e9 in *.
      destruct (Z.le_gt_cases 0 n) as [Hp | Hm].
      - pose proof (Z.rem_nonneg n 1000000000 ltac:(lia) Hp). lia.
      - pose proof (Z.rem_nonpos n 1000000000 ltac:(lia) ltac:(lia)). lia. }
    assert (Hq1 : Int.is_int64 (Z.quot n time.e9 - 1) /\ Int.is_int64 (Z.quot n time.e9)).
    { unfold Int.is_int64, Int.two63, time.e9 in *. lia. }
    cbv zeta. rewrite Z.add_0_l.
    rewrite (int64_fixed (Z.quot n time.e9)) by apply Hq1.
    rewrite (int64_fixed (Z.quot n time.e9 * time.e9)) by assumption.
    replace (n - Z.quot n time.e9 * time.e9) with (Z.rem n time.e9) by lia.
    rewrite (int64_fixed (Z.rem n time.e9))
      by (unfold Int.is_int64, Int.two63, time.e9 in *; lia).
    destruct (Z.ltb_spec (Z.rem n time.e9) 0);
      unfold time.UnixNano; cbn [time.sec time.nsec]; rewrite int64_absorb.
    + rewrite (int64_fixed (Z.quot n time.e9 - 1)) by apply Hq1.
      rewrite (int64_fixed (Z.rem n time.e9 + time.e9))
        by (unfold Int.is_int64, Int.two63, time.e9 in *; lia).
      transitivity (Int.int64 n); [f_equal; lia | now apply int64_fixed].
    + transitivity (Int.int64 n); [f_equal; lia | now apply int64_fixed].
  - unfold time.UnixNano; cbn [time.sec time.nsec].
    rewrite int64_absorb. rewrite Z.mul_0_l, Z.add_0_l. now apply int64_fixed.
Qed.

End Integers.

(** ** Timestamps, maps and value conversion *)

Section Containers.

Lemma timestampToNano_int64 ts : timestampToNano ts = Int.int64 ts.
Proof.
  unfold timestampToNano, pcommon.AsTime, time.UTC.
  apply UnixNano_Unix, int64_range.
Qed.

Lemma nanoToTimestamp_uint64 n : Int.is_int64 n -> nanoToTimestamp n = Int.uint64 n.
Proof.
  intros Hn. unfold nanoToTimestamp, pcommon.NewTimestampFromTime.
  now rewrite UnixNano_Unix.
Qed.


Lemma Get_Put_eq (m : pcommon.Map) k v : pcommon.Get (pcommon.Put m k v) k = Some v.
Proof.
  induction m as [|[k' x] m IH]; cbn.
  - now rewrite String.eqb_refl.
  - destruct (String.eqb k' k) eqn:E; cbn; rewrite E; [reflexivity | exact IH].
Qed.

Lemma Get_Put_ne (m : pcommon.Map) k k' v :
  k <> k' -> pcommon.Get (pcommon.Put m k v) k' = pcommon.Get m k'.
Proof.
  intros Hne. induction m as [|[k0 x] m IH]; cbn.
  - destruct (String.eqb_spec k k'); [contradiction | reflexivity].
  - destruct (String.eqb_spec k0 k) as [-> | Hk0]; cbn.
    + destruct (String.eqb_spec k k'); [contradiction | reflexivity].
    + destruct (String.eqb k0 k'); [reflexivity | exact IH].
Qed.



Lemma GetValue_SetValue val x :
  ottlcommon.SetValue val = Some x -> ottlcommon.GetValue x = val.
Proof. destruct val; cbn; intros [= <-]; reflexivity. Qed.

Lemma GetMapValue_SetMapValue m k val x :
  ottlcommon.SetValue val = Some x ->
  ottlcommon.GetMapValue (ottlcommon.SetMapValue m k val) k = val.
Proof.
  intros Hx. unfold ottlcommon.GetMapValue, ottlcommon.SetMapValue.
  rewrite Hx, Get_Put_eq. now apply GetValue_SetValue.
Qed.

Lemma GetMapValue_SetMapValue_ne m k k' val :
  k <> k' ->
  ottlcommon.GetMapValue (ottlcommon.SetMapValue m k val) k' =
  ottlcommon.GetMapValue m k'.
Proof.
  intros Hne. unfold ottlcommon.GetMapValue, ottlcommon.SetMapValue.
  destruct (ottlcommon.SetValue val); [now rewrite Get_Put_ne | reflexivity].
Qed.


End Containers.

(** ** Resolution of paths to accessors *)

Ltac on_name n :=
  match goal with
  | |- context [String.eqb n ?s] =>
      let E := fresh "E" in
      destruct (String.eqb n s) eqn:E; [apply String.eqb_eq in E; subst n; cbn |]
  end.

Section Resolving.

Variable ResourcePathGetSetter : list ottl.Field -> result StandardGetSetter.
Variable ScopePathGetSetter : list ottl.Field -> result StandardGetSetter.
Variable MetricPathGetSetter : list ottl.Field -> result StandardGetSetter.

Local Abbreviation resolve :=
  (newPathGetSetter ResourcePathGetSetter ScopePathGetSetter MetricPathGetSetter).

(** A path addressing a location resolves to the accessor of that location. *)
Lemma newPathGetSetter_field path f :
  View.fieldOfPath path = Some f -> resolve path = Ok (accessorOf f).
Proof.
  destruct path as [|[name key] rest]; [discriminate|].
  unfold View.fieldOfPath, newPathGetSetter.
  cbn [ottl.Name ottl.MapKey View.assoc View.keyed View.leaves View.substructures].
  revert f.
  repeat (on_name name;
          [ try (intros f [= <-]; destruct key; reflexivity);
            try discriminate | ]).
  all: try discriminate.
  all: destruct rest as [|[name1 key1] rest1]; cbn;
       [ intros f [= <-]; reflexivity | ].
  all: repeat (on_name name1; [ intros f [= <-]; reflexivity | ]); discriminate.
Qed.

(** Conversely, an accessor resolved by this package itself is the
    accessor of the location the path addresses. *)
Lemma newPathGetSetter_local path0 rest gs :
  resolve (path0 :: rest) = Ok gs ->
  ~ In (ottl.Name path0) View.delegated ->
  exists f, View.fieldOfPath (path0 :: rest) = Some f /\ gs = accessorOf f.
Proof.
  destruct path0 as [name key].
  unfold View.fieldOfPath, newPathGetSetter.
  cbn [ottl.Name ottl.MapKey View.assoc View.keyed View.leaves View.substructures
       View.delegated].
  repeat (on_name name;
          [ try (intros _ Hd; exfalso; apply Hd; cbn; tauto);
            try (destruct key; intros [= <-] _; eexists; split; reflexivity) | ]).
  all: try discriminate.
  all: destruct rest as [|[name1 key1] rest1]; cbn;
       [ intros [= <-] _; eexists; split; reflexivity | ].
  all: repeat (on_name name1; [ intros [= <-] _; eexists; split; reflexivity | ]);
       discriminate.
Qed.

(** A first segment outside the dispatch table is an error carrying the
    whole path. *)
Lemma newPathGetSetter_unknown path0 rest :
  ~ In (ottl.Name path0) View.dispatchNames ->
  resolve (path0 :: rest) = Err (ErrInvalidPathExpression (path0 :: rest)).
Proof.
  destruct path0 as [name key]. unfold newPathGetSetter. cbn [ottl.Name ottl.MapKey].
  intros Hn.
  repeat (on_name name; [ exfalso; apply Hn; cbn; tauto | ]).
  reflexivity.
Qed.

(** Below [positive] and [negative], a second segment outside the
    sub-table is the same error. *)
Lemma newPathGetSetter_unknown_sub path0 path1 rest :
  In (ottl.Name path0) (map fst View.substructures) ->
  ~ In (ottl.Name path1) View.substructureNames ->
  resolve (path0 :: path1 :: rest)
  = Err (ErrInvalidPathExpression (path0 :: path1 :: rest)).
Proof.
  destruct path0 as [name key], path1 as [name1 key1].
  unfold newPathGetSetter. cbn [ottl.Name ottl.MapKey].
  intros [<- | [<- | []]] Hn; cbn.
  all: repeat (on_name name1; [ exfalso; apply Hn; cbn; tauto | ]); reflexivity.
Qed.

End Resolving.

(** ** The enum symbol table *)

Section Symbols.

Variable MetricSymbolTable : gmap string ottl.Enum.

(** Assigning every shared entry into a table gives the shared table
    laid over it. *)
Lemma init_union (table : gmap string ottl.Enum) :
  init MetricSymbolTable table = MetricSymbolTable ∪ table.
Proof.
  unfold init.
  apply (map_fold_weak_ind
           (fun (r : gmap string ottl.Enum) (m : gmap string ottl.Enum) => r = m ∪ table)).
  - now rewrite (left_id_L ∅ (∪)).
  - intros i x m r _ ->. apply insert_union_l.
Qed.

Lemma symbolTable_lookup (sym : string) :
  symbolTable MetricSymbolTable !! sym =
  match MetricSymbolTable !! sym with
  | Some enum => Some enum
  | None => symbolTableLiteral !! sym
  end.
Proof.
  unfold symbolTable. rewrite init_union, lookup_union.
  destruct (MetricSymbolTable !! sym), (symbolTableLiteral !! sym); reflexivity.
Qed.

(** C2, as the code has it: the table starts from the context-specific
    entries FLAG_NONE=0 and FLAG_NO_RECORDED_VALUE=1 and [init] then
    assigns every entry of the shared table into it, so a name present
    in both carries the shared table's value, and a name of the
    context-specific entries alone keeps its value. *)
Theorem symbolTable_shared_entry_wins (sym : string) :
  symbolTableLiteral !! "FLAG_NONE" = Some 0 /\
  symbolTableLiteral !! "FLAG_NO_RECORDED_VALUE" = Some 1 /\
  symbolTable MetricSymbolTable = MetricSymbolTable ∪ symbolTableLiteral /\
  (forall shared, MetricSymbolTable !! sym = Some shared ->
     symbolTable MetricSymbolTable !! sym = Some shared) /\
  (MetricSymbolTable !! sym = None ->
     symbolTable MetricSymbolTable !! sym = symbolTableLiteral !! sym).
Proof.
  split; [reflexivity|]. split; [reflexivity|]. split; [apply init_union|].
  split.
  - intros shared Hs. now rewrite symbolTable_lookup, Hs.
  - intros Hs. now rewrite symbolTable_lookup, Hs.
Qed.


End Symbols.

(** C2, as stated, fails: with a shared table that also defines FLAG_NONE
    (as 7), the merged table carries 7 under that name, not the
    context-specific 0. *)
Lemma symbolTable_context_entry_loses :
  Sample.collidingSymbols !! "FLAG_NONE" = Some 7 /\
  symbolTableLiteral !! "FLAG_NONE" = Some 0 /\
  symbolTable Sample.collidingSymbols !! "FLAG_NONE" = Some 7 /\
  symbolTable Sample.collidingSymbols !! "FLAG_NONE" <> symbolTableLiteral !! "FLAG_NONE".
Proof.
  assert (H : symbolTable Sample.collidingSymbols !! "FLAG_NONE" = Some 7)
    by (rewrite symbolTable_lookup; reflexivity).
  split; [reflexivity|]. split; [reflexivity|]. split; [exact H|].
  rewrite H. discriminate.
Qed.


(** ** Path resolution fails before any record is seen *)

Lemma dispatchNames_listed :
  View.dispatchNames =
  ["cache"; "attributes"; "resource"; "instrumentation_scope"; "metric";
   "start_time_unix_nano"; "time_unix_nano"; "value_double"; "value_int";
   "exemplars"; "flags"; "count"; "sum"; "bucket_counts"; "explicit_bounds";
   "scale"; "zero_count"; "quantile_values"; "positive"; "negative"].
Proof. reflexivity. Qed.

Section Claims.

Variable ResourcePathGetSetter : list ottl.Field -> result StandardGetSetter.
Variable ScopePathGetSetter : list ottl.Field -> result StandardGetSetter.
Variable MetricPathGetSetter : list ottl.Field -> result StandardGetSetter.

Local Abbreviation resolve :=
  (newPathGetSetter ResourcePathGetSetter ScopePathGetSetter MetricPathGetSetter).
Local Abbreviation parse :=
  (parsePath ResourcePathGetSetter ScopePathGetSetter MetricPathGetSetter).

(** C6: [parsePath] takes the path alone, no context and no store, and
    either yields an accessor or an error. A nil path and a path without
    fields are errors carrying the path; a path whose first segment's name
    is outside the dispatch table, or whose first segment is [positive] or
    [negative] and whose second segment's name is neither [offset] nor
    [bucket_counts], is an error carrying all the fields of that path. In
    none of these cases is an accessor produced. *)
Theorem parsePath_unresolvable :
  parse None = Err (ErrBadPath None) /\
  (forall p, ottl.Fields p = [] -> parse (Some p) = Err (ErrBadPath (Some p))) /\
  (forall p path0 rest,
     ottl.Fields p = path0 :: rest ->
     ~ In (ottl.Name path0) View.dispatchNames ->
     parse (Some p) = Err (ErrInvalidPathExpression (ottl.Fields p))) /\
  (forall p path0 path1 rest,
     ottl.Fields p = path0 :: path1 :: rest ->
     In (ottl.Name path0) ["positive"; "negative"] ->
     ~ In (ottl.Name path1) ["offset"; "bucket_counts"] ->
     parse (Some p) = Err (ErrInvalidPathExpression (ottl.Fields p))).
Proof.
  split; [reflexivity|]. split; [|split].
  - intros p Hp. unfold parsePath. now rewrite Hp.
  - intros p path0 rest Hp Hn. unfold parsePath. rewrite Hp.
    now apply newPathGetSetter_unknown.
  - intros p path0 path1 rest Hp H0 H1. unfold parsePath. rewrite Hp.
    now apply newPathGetSetter_unknown_sub.
Qed.

(** ** Variant dispatch inside the accessors *)



End Claims.

Ltac not_listed :=
  let H := fresh "H" in
  intros H; cbn in H; repeat (destruct H as [H | H]; [discriminate H |]); exact H.

Lemma parsePath_unresolvable_witness :
  parsePath Sample.noResolver Sample.noResolver Sample.noResolver
    (Some (ottl.mkPath (Sample.path ["bogus_field"])))
  = Err (ErrInvalidPathExpression (Sample.path ["bogus_field"])) /\
  parsePath Sample.noResolver Sample.noResolver Sample.noResolver
    (Some (ottl.mkPath (Sample.path ["positive"; "bogus_field"])))
  = Err (ErrInvalidPathExpression (Sample.path ["positive"; "bogus_field"])) /\
  parsePath Sample.noResolver Sample.noResolver Sample.noResolver
    (Some (ottl.mkPath []))
  = Err (ErrBadPath (Some (ottl.mkPath []))).
Proof.
  destruct (parsePath_unresolvable Sample.noResolver Sample.noResolver Sample.noResolver)
    as (_ & Hempty & Hfirst & Hsecond).
  split; [|split].
  - apply (Hfirst (ottl.mkPath (Sample.path ["bogus_field"]))
             (ottl.mkField "bogus_field" None) []); [reflexivity | not_listed].
  - apply (Hsecond (ottl.mkPath (Sample.path ["positive"; "bogus_field"]))
             (ottl.mkField "positive" None) (ottl.mkField "bogus_field" None) []);
      [reflexivity | cbn; tauto | not_listed].
  - apply Hempty. reflexivity.
Defined.



(** ** Integer accessors, exemplars and the histogram scenario *)

Section Datapoints.

Variable ResourcePathGetSetter : list ottl.Field -> result StandardGetSetter.
Variable ScopePathGetSetter : list ottl.Field -> result StandardGetSetter.
Variable MetricPathGetSetter : list ottl.Field -> result StandardGetSetter.

Local Abbreviation resolve :=
  (newPathGetSetter ResourcePathGetSetter ScopePathGetSetter MetricPathGetSetter).

(** C9: the integer accessors convert between widths without a check. Get
    on count, zero_count and flags returns the stored unsigned value
    reinterpreted as a signed 64-bit integer, negative from 2^63 on; Set
    on count and zero_count stores the supplied signed value reinterpreted
    as unsigned; Set on scale, positive.offset and negative.offset stores
    the low 32 bits of the supplied value read as an int32. *)
Theorem integer_accessors_reinterpret path f gs tCtx st :
  resolve path = Ok gs ->
  View.fieldOfPath path = Some f ->
  View.wfDataPoint (dataPoint tCtx) ->
  (forall u,
     View.readsUnsigned f = true ->
     View.storedInteger f (dataPoint tCtx) = Some u ->
     Getter gs tCtx st = Ok (VInt64 (View.reinterpretAsSigned64 u)) /\
     (2 ^ 63 <= u -> View.reinterpretAsSigned64 u < 0)) /\
  (forall i old,
     View.writesUnsigned64 f = true ->
     View.storedInteger f (dataPoint tCtx) = Some old ->
     Int.is_int64 i ->
     exists tCtx',
       Setter gs tCtx (VInt64 i) st = (None, tCtx', st) /\
       View.storedInteger f (dataPoint tCtx') = Some (View.reinterpretAsUnsigned64 i)) /\
  (forall i old,
     View.writesInt32 f = true ->
     View.storedInteger f (dataPoint tCtx) = Some old ->
     Int.is_int64 i ->
     exists tCtx',
       Setter gs tCtx (VInt64 i) st = (None, tCtx', st) /\
       View.storedInteger f (dataPoint tCtx') = Some (View.truncateToInt32 i)).
Proof.
  intros Hgs Hf Hwf.
  rewrite (newPathGetSetter_field _ _ _ _ _ Hf) in Hgs. injection Hgs as <-.
  destruct tCtx as [dp m ms sc r c]. cbn in Hwf.
  split; [|split].
  - intros u Hr Hu.
    assert (Hrange : Int.is_uint64 u).
    { destruct f; try discriminate Hr;
        destruct dp; cbn in Hu, Hwf; try discriminate Hu; injection Hu as <-;
        unfold Int.is_uint64, Int.is_uint32, Int.two32, Int.two64 in *; lia. }
    split.
    + rewrite <- (int64_of_uint64 u Hrange).
      destruct f; try discriminate Hr;
        destruct dp; cbn in Hu; try discriminate Hu; injection Hu as <-; reflexivity.
    + unfold View.reinterpretAsSigned64, Int.is_uint64, Int.two64 in *.
      intros Hbig. destruct (Z.ltb_spec u (2 ^ 63)); lia.
  - intros i old Hw Hold Hi. rewrite <- (uint64_of_int64 i Hi).
    destruct f; try discriminate Hw;
      destruct dp; cbn in Hold; try discriminate Hold; eexists; split; reflexivity.
  - intros i old Hw Hold Hi. rewrite <- (int32_truncates i).
    destruct f; try discriminate Hw;
      destruct dp; cbn in Hold; try discriminate Hold; eexists; split; reflexivity.
Qed.

(** C10: whatever the rest of the path, a first segment [exemplars]
    resolves to the exemplars accessor. On a summary point its Get returns
    nil without error and its Set changes nothing; on a number, histogram
    or exponential-histogram point its Get returns the point's exemplars
    and its Set with an exemplar slice makes them the point's exemplars,
    leaving every other member alone. *)
Theorem exemplars_accessor_by_variant path0 rest tCtx st :
  ottl.Name path0 = "exemplars" ->
  resolve (path0 :: rest) = Ok accessExemplars /\
  (forall dp, dataPoint tCtx = IsSummary dp ->
     Getter accessExemplars tCtx st = Ok VNil /\
     forall val, Setter accessExemplars tCtx val st = (None, tCtx, st)) /\
  (forall dp new, dataPoint tCtx = IsNumber dp ->
     Getter accessExemplars tCtx st = Ok (VExemplarSlice (NDP.Exemplars dp)) /\
     Setter accessExemplars tCtx (VExemplarSlice new) st
       = (None, withDataPoint tCtx (IsNumber (NDP.SetExemplars dp new)), st) /\
     Getter accessExemplars (withDataPoint tCtx (IsNumber (NDP.SetExemplars dp new))) st
       = Ok (VExemplarSlice new)) /\
  (forall dp new, dataPoint tCtx = IsHistogram dp ->
     Getter accessExemplars tCtx st = Ok (VExemplarSlice (HDP.Exemplars dp)) /\
     Setter accessExemplars tCtx (VExemplarSlice new) st
       = (None, withDataPoint tCtx (IsHistogram (HDP.SetExemplars dp new)), st) /\
     Getter accessExemplars (withDataPoint tCtx (IsHistogram (HDP.SetExemplars dp new))) st
       = Ok (VExemplarSlice new)) /\
  (forall dp new, dataPoint tCtx = IsExponentialHistogram dp ->
     Getter accessExemplars tCtx st = Ok (VExemplarSlice (EDP.Exemplars dp)) /\
     Setter accessExemplars tCtx (VExemplarSlice new) st
       = (None, withDataPoint tCtx (IsExponentialHistogram (EDP.SetExemplars dp new)), st) /\
     Getter accessExemplars
       (withDataPoint tCtx (IsExponentialHistogram (EDP.SetExemplars dp new))) st
       = Ok (VExemplarSlice new)).
Proof.
  intros Hname. destruct path0 as [name key]. cbn in Hname. subst name.
  destruct tCtx as [subject m ms sc r c].
  split; [reflexivity|].
  repeat split; cbn in *; subst; cbn; try reflexivity.
  destruct val; reflexivity.
Qed.

(** C5: on a histogram point with count 10, sum 5.0, bucket counts
    [1,2,3] and explicit bounds [0,1], Set of [count] with int64 20 makes
    Get of [count] return 20 and changes no other member, so sum, bucket
    counts and explicit bounds read as before; Set of [value_double] with
    1.0 then changes nothing, and [count] still reads 20. *)
Theorem histogram_set_count_scenario tCtx st dp :
  dataPoint tCtx = IsHistogram dp ->
  HDP.Count dp = 10 ->
  HDP.sum dp = Some 5%float ->
  HDP.BucketCounts dp = [1; 2; 3] ->
  HDP.ExplicitBounds dp = [0%float; 1%float] ->
  let tCtx1 := withDataPoint tCtx (IsHistogram (HDP.SetCount dp 20)) in
  resolve (Sample.path ["count"]) = Ok accessCount /\
  resolve (Sample.path ["value_double"]) = Ok accessDoubleValue /\
  resolve (Sample.path ["sum"]) = Ok accessSum /\
  resolve (Sample.path ["bucket_counts"]) = Ok accessBucketCounts /\
  resolve (Sample.path ["explicit_bounds"]) = Ok accessExplicitBounds /\
  Getter accessCount tCtx st = Ok (VInt64 10) /\
  Setter accessCount tCtx (VInt64 20) st = (None, tCtx1, st) /\
  Getter accessCount tCtx1 st = Ok (VInt64 20) /\
  Getter accessSum tCtx1 st = Ok (VFloat64 5%float) /\
  Getter accessBucketCounts tCtx1 st = Ok (VUint64Slice [1; 2; 3]) /\
  Getter accessExplicitBounds tCtx1 st = Ok (VFloat64Slice [0%float; 1%float]) /\
  Setter accessDoubleValue tCtx1 (VFloat64 1%float) st = (None, tCtx1, st) /\
  Getter accessDoubleValue tCtx1 st = Ok VNil.
Proof.
  intros Hdp Hcount Hsum Hbuckets Hbounds tCtx1. subst tCtx1.
  destruct tCtx as [subject m ms sc r c]. cbn in Hdp. subst subject.
  destruct dp as [a s t n su bc eb ex fl mi ma]. cbn in *. subst.
  repeat split; reflexivity.
Qed.

End Datapoints.

Ltac in_range :=
  cbn; unfold View.wfContext, View.wfDataPoint, View.wfBuckets, Int.is_uint64, Int.is_uint32,
    Int.is_int64, Int.is_int32, Int.two32, Int.two63, Int.two64; cbn; repeat split; lia.

Lemma integer_accessors_reinterpret_witness :
  let tCtx := fst (Sample.contextOf (IsExponentialHistogram Sample.expoHistogram)) in
  let st := snd (Sample.contextOf (IsExponentialHistogram Sample.expoHistogram)) in
  View.wfDataPoint (dataPoint tCtx) /\
  Getter accessCount tCtx st = Ok (VInt64 (- 2 ^ 63)) /\
  (exists tCtx',
     Setter accessCount tCtx (VInt64 (-1)) st = (None, tCtx', st) /\
     View.storedInteger View.f_count (dataPoint tCtx') = Some (2 ^ 64 - 1)) /\
  (exists tCtx',
     Setter accessScale tCtx (VInt64 (2 ^ 32 + 5)) st = (None, tCtx', st) /\
     View.storedInteger View.f_scale (dataPoint tCtx') = Some 5).
Proof.
  intros tCtx st.
  assert (Hwf : View.wfDataPoint (dataPoint tCtx)) by in_range.
  split; [exact Hwf|]. split; [|split].
  - destruct (integer_accessors_reinterpret Sample.noResolver Sample.noResolver
                Sample.noResolver (Sample.path ["count"]) View.f_count accessCount
                tCtx st eq_refl eq_refl Hwf) as (Hget & _ & _).
    exact (proj1 (Hget (2 ^ 63) eq_refl eq_refl)).
  - destruct (integer_accessors_reinterpret Sample.noResolver Sample.noResolver
                Sample.noResolver (Sample.path ["count"]) View.f_count accessCount
                tCtx st eq_refl eq_refl Hwf) as (_ & Hset & _).
    apply (Hset (-1) (2 ^ 63) eq_refl eq_refl). in_range.
  - destruct (integer_accessors_reinterpret Sample.noResolver Sample.noResolver
                Sample.noResolver (Sample.path ["scale"]) View.f_scale accessScale
                tCtx st eq_refl eq_refl Hwf) as (_ & _ & Hset).
    apply (Hset (2 ^ 32 + 5) 3 eq_refl eq_refl). in_range.
Defined.

Lemma exemplars_accessor_by_variant_witness :
  let tCtx := fst (Sample.contextOf (IsSummary Sample.summary)) in
  let st := snd (Sample.contextOf (IsSummary Sample.summary)) in
  newPathGetSetter Sample.noResolver Sample.noResolver Sample.noResolver
    (Sample.path ["exemplars"]) = Ok accessExemplars /\
  Getter accessExemplars tCtx st = Ok VNil /\
  Setter accessExemplars tCtx (VExemplarSlice []) st = (None, tCtx, st).
Proof.
  intros tCtx st.
  destruct (exemplars_accessor_by_variant Sample.noResolver Sample.noResolver
              Sample.noResolver (ottl.mkField "exemplars" None) [] tCtx st eq_refl)
    as (Hres & Hsummary & _).
  destruct (Hsummary Sample.summary eq_refl) as [Hget Hset].
  split; [exact Hres|]. split; [exact Hget | apply Hset].
Defined.

Lemma histogram_set_count_scenario_witness :
  let tCtx := fst (Sample.contextOf (IsHistogram Sample.histogram)) in
  let st := snd (Sample.contextOf (IsHistogram Sample.histogram)) in
  let tCtx1 := withDataPoint tCtx (IsHistogram (HDP.SetCount Sample.histogram 20)) in
  Setter accessCount tCtx (VInt64 20) st = (None, tCtx1, st) /\
  Getter accessCount tCtx1 st = Ok (VInt64 20) /\
  Setter accessDoubleValue tCtx1 (VFloat64 1%float) st = (None, tCtx1, st).
Proof.
  intros tCtx st tCtx1.
  pose proof (histogram_set_count_scenario Sample.noResolver Sample.noResolver
                Sample.noResolver tCtx st Sample.histogram
                eq_refl eq_refl eq_refl eq_refl eq_refl) as H.
  cbv zeta in H. tauto.
Defined.

(** ** Set of what Get returned *)

Section RoundTrip.

Variable ResourcePathGetSetter : list ottl.Field -> result StandardGetSetter.
Variable ScopePathGetSetter : list ottl.Field -> result StandardGetSetter.
Variable MetricPathGetSetter : list ottl.Field -> result StandardGetSetter.

Local Abbreviation resolve :=
  (newPathGetSetter ResourcePathGetSetter ScopePathGetSetter MetricPathGetSetter).



End RoundTrip.



(** ** The cache of a context *)

Section Cache.

Variable ResourcePathGetSetter : list ottl.Field -> result StandardGetSetter.
Variable ScopePathGetSetter : list ottl.Field -> result StandardGetSetter.
Variable MetricPathGetSetter : list ottl.Field -> result StandardGetSetter.

Local Abbreviation resolve :=
  (newPathGetSetter ResourcePathGetSetter ScopePathGetSetter MetricPathGetSetter).

(** A new context holds a reference no allocated map has, and its cache is
    empty. *)
Lemma NewTransformContext_fresh dp m ms sc r (st st' : Store) tCtx :
  NewTransformContext dp m ms sc r st = (tCtx, st') ->
  st !! cache tCtx = None /\
  st' = <[cache tCtx := pcommon.NewMapContent]> st /\
  dataPoint tCtx = dp.
Proof.
  unfold NewTransformContext, pcommon.NewMap. intros [= <- <-]. cbn.
  split; [|split; reflexivity].
  apply (not_elem_of_dom (D := gset positive)). apply is_fresh.
Qed.

(** Only the cache accessors write to the store. *)
Lemma data_point_setter_keeps_store f tC val (st : Store) :
  View.isDataPointField f = true ->
  snd (Setter (accessorOf f) tC val st) = st.
Proof.
  intros Hf. destruct tC as [dp m ms sc r c].
  destruct f; try discriminate Hf; cbn; destruct val; cbn; destruct dp; reflexivity.
Qed.

(** A Set through one context leaves the entry under [k] of another
    context's cache alone, and so does a Set through the same context that
    addresses neither the whole cache nor the entry under [k]. *)
Lemma cache_entry_frame f tC val (st : Store) tA k :
  cache tC <> cache tA \/ (f <> View.f_cache /\ f <> View.f_cache_key k) ->
  Getter (accessCacheKey k) tA (snd (Setter (accessorOf f) tC val st))
  = Getter (accessCacheKey k) tA st.
Proof.
  intros Hsep.
  destruct (View.isDataPointField f) eqn:Hdp.
  - now rewrite data_point_setter_keeps_store.
  - destruct f; try discriminate Hdp; cbn [accessorOf].
    + unfold accessCache, accessCacheKey. cbn [Getter Setter].
      destruct Hsep as [Hne | [Hc _]]; [|contradiction].
      assert (Hsame : forall m, getCache tA (withCache tC m st) = getCache tA st).
      { intros m. unfold getCache, withCache. now rewrite lookup_insert_ne. }
      destruct val; cbn [snd]; now rewrite ?Hsame.
    + unfold accessCacheKey. cbn [Getter Setter snd]. f_equal.
      unfold getCache at 1, withCache.
      destruct (decide (cache tC = cache tA)) as [Heq | Hne].
      * destruct Hsep as [Hne | [_ Hk]]; [contradiction|].
        rewrite Heq, lookup_insert_eq. cbn.
        rewrite GetMapValue_SetMapValue_ne by congruence.
        unfold getCache. now rewrite Heq.
      * now rewrite lookup_insert_ne.
Qed.

(** C8: a context built by [NewTransformContext] starts with an empty
    cache. After Set of [cache[k]] on a context writes a value of the
    closed value sum, Get of [cache[k]] on that context returns the value,
    and keeps returning it after any later Set that goes through another
    context or addresses neither the whole cache nor the entry under [k].
    A second context built by [NewTransformContext] has a cache of its
    own, and Get of [cache[k]] on it still finds nothing. *)
Theorem cache_visible_within_context
    dpA mA msA scA rA dpB mB msB scB rB (st0 st1 st2 : Store) tA tB k val x :
  NewTransformContext dpA mA msA scA rA st0 = (tA, st1) ->
  NewTransformContext dpB mB msB scB rB st1 = (tB, st2) ->
  ottlcommon.SetValue val = Some x ->
  getCache tA st1 = [] /\
  getCache tA st2 = [] /\
  getCache tB st2 = [] /\
  cache tA <> cache tB /\
  resolve [ottl.mkField "cache" (Some k)] = Ok (accessCacheKey k) /\
  Getter (accessCacheKey k) tA st2 = Ok VNil /\
  exists st3,
    Setter (accessCacheKey k) tA val st2 = (None, tA, st3) /\
    Getter (accessCacheKey k) tA st3 = Ok val /\
    Getter (accessCacheKey k) tB st3 = Ok VNil /\
    getCache tB st3 = [] /\
    forall f tC val',
      cache tC <> cache tA \/ (f <> View.f_cache /\ f <> View.f_cache_key k) ->
      Getter (accessCacheKey k) tA (snd (Setter (accessorOf f) tC val' st3)) = Ok val.
Proof.
  intros HA HB Hx.
  destruct (NewTransformContext_fresh _ _ _ _ _ _ _ _ HA) as (HfreshA & -> & _).
  destruct (NewTransformContext_fresh _ _ _ _ _ _ _ _ HB) as (HfreshB & -> & _).
  assert (Hne : cache tA <> cache tB).
  { intros Heq. rewrite <- Heq, lookup_insert_eq in HfreshB. discriminate. }
  assert (HA1 : getCache tA (<[cache tA := pcommon.NewMapContent]> st0) = []).
  { unfold getCache. now rewrite lookup_insert_eq. }
  assert (HA2 : getCache tA
                  (<[cache tB := pcommon.NewMapContent]>
                     (<[cache tA := pcommon.NewMapContent]> st0)) = []).
  { unfold getCache. rewrite lookup_insert_ne by congruence.
    now rewrite lookup_insert_eq. }
  assert (HB2 : getCache tB
                  (<[cache tB := pcommon.NewMapContent]>
                     (<[cache tA := pcommon.NewMapContent]> st0)) = []).
  { unfold getCache. now rewrite lookup_insert_eq. }
  split; [exact HA1|]. split; [exact HA2|]. split; [exact HB2|].
  split; [exact Hne|]. split; [reflexivity|].
  split; [unfold accessCacheKey; cbn [Getter]; now rewrite HA2|].
  eexists. split; [reflexivity|].
  assert (Hread : Getter (accessCacheKey k) tA
                    (withCache tA (ottlcommon.SetMapValue
                       (getCache tA
                          (<[cache tB := pcommon.NewMapContent]>
                             (<[cache tA := pcommon.NewMapContent]> st0))) k val)
                       (<[cache tB := pcommon.NewMapContent]>
                          (<[cache tA := pcommon.NewMapContent]> st0)))
                  = Ok val).
  { unfold accessCacheKey. cbn [Getter]. f_equal.
    unfold getCache at 1, withCache. rewrite lookup_insert_eq. cbn.
    now apply GetMapValue_SetMapValue with (x := x). }
  assert (HB3 : forall m, getCache tB
                  (withCache tA m
                     (<[cache tB := pcommon.NewMapContent]>
                        (<[cache tA := pcommon.NewMapContent]> st0))) = []).
  { intros m. unfold getCache, withCache. rewrite lookup_insert_ne by exact Hne.
    now rewrite lookup_insert_eq. }
  split; [exact Hread|].
  split; [unfold accessCacheKey; cbn [Getter]; now rewrite HB3|].
  split; [apply HB3|].
  intros f tC val' Hsep. rewrite cache_entry_frame by exact Hsep. exact Hread.
Qed.

End Cache.

Lemma cache_visible_within_context_witness :
  let A := Sample.contextOf (IsHistogram Sample.histogram) in
  let B := NewTransformContext (IsSummary Sample.summary) 2%positive 2%positive
             2%positive 2%positive (snd A) in
  ottlcommon.SetValue (VString "seen") = Some (pcommon.ValueStr "seen") /\
  Getter (accessCacheKey "note") (fst A) (snd B) = Ok VNil /\
  exists st3,
    Setter (accessCacheKey "note") (fst A) (VString "seen") (snd B) = (None, fst A, st3) /\
    Getter (accessCacheKey "note") (fst A) st3 = Ok (VString "seen") /\
    Getter (accessCacheKey "note") (fst B) st3 = Ok VNil.
Proof.
  intros A B.
  destruct (cache_visible_within_context Sample.noResolver Sample.noResolver
              Sample.noResolver
              (IsHistogram Sample.histogram) 1%positive 1%positive 1%positive 1%positive
              (IsSummary Sample.summary) 2%positive 2%positive 2%positive 2%positive
              ∅ (snd A) (snd B) (fst A) (fst B) "note" (VString "seen")
              (pcommon.ValueStr "seen") eq_refl eq_refl eq_refl)
    as (_ & _ & _ & _ & _ & Hempty & st3 & Hset & Hget & Hother & _).
  split; [reflexivity|]. split; [exact Hempty|].
  exists st3. split; [exact Hset|]. split; [exact Hget | exact Hother].
Defined.

(** * Further properties of the accessors *)

(** ** Reading back what was set *)

Section MoreIntegers.

Lemma uint64_range z : Int.is_uint64 (Int.uint64 z).
Proof.
  unfold Int.is_uint64, Int.uint64, Int.two64. apply Z.mod_pos_bound. lia.
Qed.

Lemma uint32_range z : Int.is_uint32 (Int.uint32 z).
Proof.
  unfold Int.is_uint32, Int.uint32, Int.two32. apply Z.mod_pos_bound. lia.
Qed.

Lemma int32_range z : Int.is_int32 (Int.int32 z).
Proof.
  unfold Int.is_int32, Int.int32, Int.two32.
  pose proof (Z.mod_pos_bound (z + 2 ^ 31) (2 ^ 32)). lia.
Qed.






Lemma nanoToTimestamp_range n : Int.is_uint64 (nanoToTimestamp n).
Proof. unfold nanoToTimestamp, pcommon.NewTimestampFromTime. apply uint64_range. Qed.

End MoreIntegers.

Section ReadBack.

Variable ResourcePathGetSetter : list ottl.Field -> result StandardGetSetter.
Variable ScopePathGetSetter : list ottl.Field -> result StandardGetSetter.
Variable MetricPathGetSetter : list ottl.Field -> result StandardGetSetter.

Local Abbreviation resolve :=
  (newPathGetSetter ResourcePathGetSetter ScopePathGetSetter MetricPathGetSetter).

Lemma getCache_withCache tCtx m (st : Store) : getCache tCtx (withCache tCtx m st) = m.
Proof. unfold getCache, withCache. now rewrite lookup_insert_eq. Qed.



End ReadBack.

(** ** What a Set leaves alone *)

Section Frame.

Variable ResourcePathGetSetter : list ottl.Field -> result StandardGetSetter.
Variable ScopePathGetSetter : list ottl.Field -> result StandardGetSetter.
Variable MetricPathGetSetter : list ottl.Field -> result StandardGetSetter.

Local Abbreviation resolve :=
  (newPathGetSetter ResourcePathGetSetter ScopePathGetSetter MetricPathGetSetter).

Lemma keys_differ k k' : negb (String.eqb k k') = true -> k <> k'.
Proof. destruct (String.eqb_spec k k'); [discriminate | auto]. Qed.

(** Get of a data-point field does not read the store. *)
Lemma data_point_getter_ignores_store g tCtx (st st' : Store) :
  View.isDataPointField g = true ->
  Getter (accessorOf g) tCtx st = Getter (accessorOf g) tCtx st'.
Proof. intros Hg. destruct g; try discriminate Hg; reflexivity. Qed.

Lemma set_frame f g tCtx val (st : Store) :
  Laws.independent f g = true ->
  exists tCtx' st',
    Setter (accessorOf f) tCtx val st = (None, tCtx', st') /\
    Getter (accessorOf g) tCtx' st' = Getter (accessorOf g) tCtx st.
Proof.
  intros Hind. destruct f.
  1: { destruct val; do 2 eexists; (split; [reflexivity|]); try reflexivity.
       destruct g; try discriminate Hind; reflexivity. }
  1: { do 2 eexists. split; [reflexivity|].
       destruct g; try discriminate Hind; try reflexivity.
       cbn in Hind. rewrite ?andb_true_r in Hind. apply keys_differ in Hind.
       unfold accessorOf, accessCacheKey. cbn [Getter]. f_equal.
       rewrite getCache_withCache. now apply GetMapValue_SetMapValue_ne. }
  2: { destruct tCtx as [dp mt mts sc rs c]; destruct dp;
         do 2 eexists; (split; [reflexivity|]); try reflexivity;
         destruct g; try discriminate Hind; try reflexivity;
         cbn in Hind; rewrite ?andb_true_r in Hind; apply keys_differ in Hind;
         cbn; f_equal; now apply GetMapValue_SetMapValue_ne. }
  all: destruct tCtx as [dp mt mts sc rs c]; destruct dp, val;
       do 2 eexists; (split; [reflexivity|]); try reflexivity;
       destruct g; try discriminate Hind; reflexivity.
Qed.

(** Frame: Set of one field leaves Get of every field that shares no
    storage with it as it was. Fields share storage when one is the whole
    of the other (attributes and its entries, the cache and its entries,
    positive or negative and their offset and bucket counts), when they
    are the same entry, or when they are the two alternatives of a number
    point's value. *)
Theorem set_leaves_independent_fields pathF pathG f g gsF gsG tCtx val st :
  resolve pathF = Ok gsF ->
  View.fieldOfPath pathF = Some f ->
  resolve pathG = Ok gsG ->
  View.fieldOfPath pathG = Some g ->
  Laws.independent f g = true ->
  exists tCtx' st',
    Setter gsF tCtx val st = (None, tCtx', st') /\
    Getter gsG tCtx' st' = Getter gsG tCtx st.
Proof.
  intros HF Hf HG Hg Hind.
  rewrite (newPathGetSetter_field _ _ _ _ _ Hf) in HF. injection HF as <-.
  rewrite (newPathGetSetter_field _ _ _ _ _ Hg) in HG. injection HG as <-.
  now apply set_frame.
Qed.

End Frame.

(** ** What a Set keeps *)

Section Keeps.

Variable ResourcePathGetSetter : list ottl.Field -> result StandardGetSetter.
Variable ScopePathGetSetter : list ottl.Field -> result StandardGetSetter.
Variable MetricPathGetSetter : list ottl.Field -> result StandardGetSetter.

Local Abbreviation resolve :=
  (newPathGetSetter ResourcePathGetSetter ScopePathGetSetter MetricPathGetSetter).

(** Neither Get nor Set of an accessor of this package ever returns an
    error, and a Set never changes the variant of the subject nor the
    metric, sibling collection, scope, resource and cache the context
    refers to. Set of a data-point field leaves the store as it is; Set of
    a cache field leaves the context as it is and writes to no map but the
    context's own cache. *)
Theorem set_keeps_shape path f gs tCtx val st :
  resolve path = Ok gs ->
  View.fieldOfPath path = Some f ->
  (exists x, Getter gs tCtx st = Ok x) /\
  exists tCtx' st',
    Setter gs tCtx val st = (None, tCtx', st') /\
    View.variantOf (dataPoint tCtx') = View.variantOf (dataPoint tCtx) /\
    metric tCtx' = metric tCtx /\
    metrics tCtx' = metrics tCtx /\
    instrumentationScope tCtx' = instrumentationScope tCtx /\
    resource tCtx' = resource tCtx /\
    cache tCtx' = cache tCtx /\
    (View.isDataPointField f = true -> st' = st) /\
    (View.isDataPointField f = false ->
       tCtx' = tCtx /\ forall l, l <> cache tCtx -> st' !! l = st !! l).
Proof.
  intros Hgs Hf.
  rewrite (newPathGetSetter_field _ _ _ _ _ Hf) in Hgs. injection Hgs as <-.
  split.
  - destruct f; destruct tCtx as [dp mt mts sc rs c]; destruct dp; eexists; reflexivity.
  - destruct f.
    1: { destruct val; do 2 eexists; (split; [reflexivity|]);
           repeat split; try reflexivity; try discriminate;
           intros l Hl; unfold withCache; now rewrite lookup_insert_ne. }
    1: { do 2 eexists; (split; [reflexivity|]);
           repeat split; try reflexivity; try discriminate;
           intros l Hl; unfold withCache; now rewrite lookup_insert_ne. }
    all: destruct tCtx as [dp mt mts sc rs c]; destruct dp, val;
         do 2 eexists; (split; [reflexivity|]);
         repeat split; try reflexivity; discriminate.
Qed.

Ltac ranges :=
  cbn in *; unfold View.wfBuckets in *; cbn in *;
  repeat match goal with
         | |- _ /\ _ => split
         | |- Int.is_uint64 (Int.uint64 _) => apply uint64_range
         | |- Int.is_uint32 (Int.uint32 _) => apply uint32_range
         | |- Int.is_int32 (Int.int32 _) => apply int32_range
         | |- Int.is_uint64 (nanoToTimestamp _) => apply nanoToTimestamp_range
         | |- _ => tauto
         end.

(** Well-formedness is an invariant of Set: on a context whose integer
    members are within the range of their Go types and whose cache is
    allocated, Set of any field with any value (a supplied bucket
    structure having its offset in range) leaves such a context. *)
Theorem set_keeps_well_formed path f gs tCtx val st :
  resolve path = Ok gs ->
  View.fieldOfPath path = Some f ->
  View.wfContext tCtx st ->
  Laws.wfValue val ->
  exists tCtx' st',
    Setter gs tCtx val st = (None, tCtx', st') /\ View.wfContext tCtx' st'.
Proof.
  intros Hgs Hf [Hdp Hc] Hval.
  rewrite (newPathGetSetter_field _ _ _ _ _ Hf) in Hgs. injection Hgs as <-.
  assert (Hins : forall m, is_Some (withCache tCtx m st !! cache tCtx)).
  { intros m. unfold withCache. rewrite lookup_insert_eq. eauto. }
  destruct f.
  1: { destruct val; do 2 eexists; (split; [reflexivity|]); split; auto. }
  1: { do 2 eexists; (split; [reflexivity|]); split; auto. }
  all: destruct tCtx as [dp mt mts sc rs c]; destruct dp, val;
       do 2 eexists; (split; [reflexivity|]);
       (split; [|exact Hc]); try exact Hdp; ranges.
Qed.

Lemma Put_Put (m : pcommon.Map) k x y :
  pcommon.Put (pcommon.Put m k x) k y = pcommon.Put m k y.
Proof.
  induction m as [|[k0 z] m IH]; cbn.
  - now rewrite String.eqb_refl.
  - destruct (String.eqb k0 k) eqn:E; cbn; rewrite E; [reflexivity | now rewrite IH].
Qed.

Lemma SetMapValue_SetMapValue m k v1 v2 :
  View.isSome (ottlcommon.SetValue v2) = true ->
  ottlcommon.SetMapValue (ottlcommon.SetMapValue m k v1) k v2
  = ottlcommon.SetMapValue m k v2.
Proof.
  unfold ottlcommon.SetMapValue.
  destruct (ottlcommon.SetValue v2); [intros _ | discriminate].
  destruct (ottlcommon.SetValue v1); [apply Put_Put | reflexivity].
Qed.

Lemma SetMapValue_twice m k v :
  ottlcommon.SetMapValue (ottlcommon.SetMapValue m k v) k v
  = ottlcommon.SetMapValue m k v.
Proof.
  destruct (ottlcommon.SetValue v) eqn:Hv.
  - apply SetMapValue_SetMapValue. now rewrite Hv.
  - unfold ottlcommon.SetMapValue. now rewrite Hv.
Qed.

Lemma withCache_withCache tCtx m1 m2 (st : Store) :
  withCache tCtx m2 (withCache tCtx m1 st) = withCache tCtx m2 st.
Proof. unfold withCache. apply insert_insert_eq. Qed.

(** Repeated Sets: a second Set of the same value changes nothing more,
    whatever the value; and of two Sets with values the field accepts only
    the last one shows, the result being that of the last Set alone. *)
Theorem set_twice path f gs tCtx st :
  resolve path = Ok gs ->
  View.fieldOfPath path = Some f ->
  (forall val tCtx1 st1,
     Setter gs tCtx val st = (None, tCtx1, st1) ->
     Setter gs tCtx1 val st1 = (None, tCtx1, st1)) /\
  (forall v1 v2 tCtx1 st1,
     Laws.accepts f v1 = true ->
     Laws.accepts f v2 = true ->
     Setter gs tCtx v1 st = (None, tCtx1, st1) ->
     Setter gs tCtx1 v2 st1 = Setter gs tCtx v2 st).
Proof.
  intros Hgs Hf.
  rewrite (newPathGetSetter_field _ _ _ _ _ Hf) in Hgs. injection Hgs as <-.
  split.
  - intros val tCtx1 st1. destruct f.
    1: { destruct val; cbn; intros [= <- <-]; try reflexivity.
         unfold pcommon.CopyTo. now rewrite withCache_withCache. }
    1: { cbn. intros [= <- <-]. rewrite getCache_withCache, withCache_withCache.
         now rewrite SetMapValue_twice. }
    2: { destruct tCtx as [dp mt mts sc rs c]; destruct dp; cbn; intros [= <- <-];
           cbn; rewrite ?SetMapValue_twice; reflexivity. }
    all: destruct tCtx as [dp mt mts sc rs c]; destruct dp, val; cbn;
         intros [= <- <-]; reflexivity.
  - intros v1 v2 tCtx1 st1 H1 H2. destruct f.
    1: { destruct v1; try discriminate H1; destruct v2; try discriminate H2.
         cbn. intros [= <- <-]. unfold pcommon.CopyTo. now rewrite withCache_withCache. }
    1: { cbn. intros [= <- <-]. rewrite getCache_withCache, withCache_withCache.
         now rewrite SetMapValue_SetMapValue. }
    2: { destruct tCtx as [dp mt mts sc rs c]; destruct dp; cbn; intros [= <- <-];
           cbn; rewrite ?SetMapValue_SetMapValue by exact H2; reflexivity. }
    all: destruct v1; try discriminate H1; destruct v2; try discriminate H2;
         destruct tCtx as [dp mt mts sc rs c]; destruct dp; cbn;
         intros [= <- <-]; reflexivity.
Qed.

End Keeps.



Lemma set_leaves_independent_fields_witness :
  let tCtx := fst (Sample.contextOf (IsExponentialHistogram Sample.expoHistogram)) in
  let st := snd (Sample.contextOf (IsExponentialHistogram Sample.expoHistogram)) in
  Laws.independent View.f_positive_offset View.f_positive_bucket_counts = true /\
  exists tCtx' st',
    Setter accessPositiveOffset tCtx (VInt64 9) st = (None, tCtx', st') /\
    Getter accessPositiveBucketCounts tCtx' st' = Ok (VUint64Slice [1; 2]).
Proof.
  intros tCtx st. split; [reflexivity|].
  exact (set_leaves_independent_fields Sample.noResolver Sample.noResolver
           Sample.noResolver
           (Sample.path ["positive"; "offset"]) (Sample.path ["positive"; "bucket_counts"])
           View.f_positive_offset View.f_positive_bucket_counts
           accessPositiveOffset accessPositiveBucketCounts tCtx (VInt64 9) st
           eq_refl eq_refl eq_refl eq_refl eq_refl).
Defined.

Lemma set_keeps_shape_witness :
  let tCtx := fst (Sample.contextOf (IsHistogram Sample.histogram)) in
  let st := snd (Sample.contextOf (IsHistogram Sample.histogram)) in
  exists tCtx' st',
    Setter accessSum tCtx (VFloat64 2%float) st = (None, tCtx', st') /\
    View.variantOf (dataPoint tCtx') = Some View.Histogram /\
    cache tCtx' = cache tCtx.
Proof.
  intros tCtx st.
  destruct (set_keeps_shape Sample.noResolver Sample.noResolver Sample.noResolver
              (Sample.path ["sum"]) View.f_sum accessSum tCtx (VFloat64 2%float) st
              eq_refl eq_refl)
    as (_ & tCtx' & st' & Hset & Hvar & _ & _ & _ & _ & Hcache & _).
  exists tCtx', st'. split; [exact Hset|]. split; [exact Hvar | exact Hcache].
Defined.

Lemma set_keeps_well_formed_witness :
  let tCtx := fst (Sample.contextOf (IsExponentialHistogram Sample.expoHistogram)) in
  let st := snd (Sample.contextOf (IsExponentialHistogram Sample.expoHistogram)) in
  View.wfContext tCtx st /\
  exists tCtx' st',
    Setter accessScale tCtx (VInt64 (2 ^ 40)) st = (None, tCtx', st') /\
    View.wfContext tCtx' st'.
Proof.
  intros tCtx st.
  assert (Hwf : View.wfContext tCtx st).
  { split; [in_range | exists []; reflexivity]. }
  split; [exact Hwf|].
  exact (set_keeps_well_formed Sample.noResolver Sample.noResolver Sample.noResolver
           (Sample.path ["scale"]) View.f_scale accessScale tCtx (VInt64 (2 ^ 40)) st
           eq_refl eq_refl Hwf I).
Defined.

Lemma set_twice_witness :
  let tCtx := fst (Sample.contextOf (IsHistogram Sample.histogram)) in
  let st := snd (Sample.contextOf (IsHistogram Sample.histogram)) in
  let tCtx1 := withDataPoint tCtx (IsHistogram (HDP.SetCount Sample.histogram 20)) in
  Setter accessCount tCtx (VInt64 20) st = (None, tCtx1, st) /\
  Setter accessCount tCtx1 (VInt64 20) st = (None, tCtx1, st) /\
  Setter accessCount tCtx1 (VInt64 30) st = Setter accessCount tCtx (VInt64 30) st.
Proof.
  intros tCtx st tCtx1.
  destruct (set_twice Sample.noResolver Sample.noResolver Sample.noResolver
              (Sample.path ["count"]) View.f_count accessCount tCtx st
              eq_refl eq_refl) as [Hsame Hlast].
  split; [reflexivity|]. split.
  - apply (Hsame (VInt64 20) tCtx1 st). reflexivity.
  - apply (Hlast (VInt64 20) (VInt64 30) tCtx1 st); reflexivity.
Defined.

(** ** How much of a path is read, and how the parts of a member relate *)

Section Shapes.

Variable ResourcePathGetSetter : list ottl.Field -> result StandardGetSetter.
Variable ScopePathGetSetter : list ottl.Field -> result StandardGetSetter.
Variable MetricPathGetSetter : list ottl.Field -> result StandardGetSetter.

Local Abbreviation resolve :=
  (newPathGetSetter ResourcePathGetSetter ScopePathGetSetter MetricPathGetSetter).

(** Resolution reads a prefix of the path only. After a leaf name, the key
    of the first segment and every further segment are ignored; after
    [cache] or [attributes], every further segment is ignored; after
    [positive] or [negative] followed by [offset] or [bucket_counts], the
    keys, and every segment past the second, are ignored. In each of these
    cases the path resolves. *)
Theorem resolution_reads_a_prefix path0 rest :
  (In (ottl.Name path0) (map fst View.leaves) ->
     resolve (path0 :: rest) = resolve [ottl.mkField (ottl.Name path0) None] /\
     exists gs, resolve (path0 :: rest) = Ok gs) /\
  (In (ottl.Name path0) (map fst View.keyed) ->
     resolve (path0 :: rest) = resolve [path0] /\
     exists gs, resolve (path0 :: rest) = Ok gs) /\
  (In (ottl.Name path0) (map fst View.substructures) ->
     forall path1,
       In (ottl.Name path1) View.substructureNames ->
       resolve (path0 :: path1 :: rest)
       = resolve [ottl.mkField (ottl.Name path0) None;
                  ottl.mkField (ottl.Name path1) None] /\
       exists gs, resolve (path0 :: path1 :: rest) = Ok gs).
Proof.
  destruct path0 as [name key]. cbn [ottl.Name]. split; [|split].
  - intros Hin. cbn in Hin.
    repeat (destruct Hin as [<- | Hin]; [split; [reflexivity | eexists; reflexivity] |]).
    destruct Hin.
  - intros Hin. cbn in Hin.
    repeat (destruct Hin as [<- | Hin];
            [split; [reflexivity | destruct key; eexists; reflexivity] |]).
    destruct Hin.
  - intros Hin [name1 key1] Hin1. cbn in Hin, Hin1.
    destruct Hin as [<- | [<- | []]];
      destruct Hin1 as [<- | [<- | []]]; (split; [reflexivity | eexists; reflexivity]).
Qed.

(** A keyed accessor goes through the whole map: for [cache] and for
    [attributes], Get of the entry under [k] is the helper's lookup in the
    map Get of the whole returns, and Set of the entry is Set of the whole
    with the helper's update of that map. *)
Theorem keyed_accessor_through_whole_map name k whole entry tCtx val st m :
  In name (map fst View.keyed) ->
  resolve [ottl.mkField name None] = Ok whole ->
  resolve [ottl.mkField name (Some k)] = Ok entry ->
  Getter whole tCtx st = Ok (VMap m) ->
  Getter entry tCtx st = Ok (ottlcommon.GetMapValue m k) /\
  Setter entry tCtx val st
  = Setter whole tCtx (VMap (ottlcommon.SetMapValue m k val)) st.
Proof.
  intros Hin. cbn in Hin. destruct Hin as [<- | [<- | []]]; cbn.
  - intros [= <-] [= <-] [= <-]. split; reflexivity.
  - intros [= <-] [= <-]. destruct tCtx as [dp mt mts sc rs c].
    destruct dp; cbn; intros [= <-]; split; reflexivity.
Qed.

(** The offset and the bucket counts of [positive] and [negative] go
    through the whole structure: their Get reads the member of the
    structure Get of the whole returns, and their Set is Set of the whole
    with that one member replaced. *)
Theorem substructure_accessor_through_whole name whole off counts tCtx st b :
  In name (map fst View.substructures) ->
  resolve (Sample.path [name]) = Ok whole ->
  resolve (Sample.path [name; "offset"]) = Ok off ->
  resolve (Sample.path [name; "bucket_counts"]) = Ok counts ->
  Getter whole tCtx st = Ok (VBuckets b) ->
  Getter off tCtx st = Ok (VInt64 (Int.int64 (EB.Offset b))) /\
  Getter counts tCtx st = Ok (VUint64Slice (EB.BucketCounts b)) /\
  (forall i, Setter off tCtx (VInt64 i) st
             = Setter whole tCtx (VBuckets (EB.SetOffset b (Int.int32 i))) st) /\
  (forall l, Setter counts tCtx (VUint64Slice l) st
             = Setter whole tCtx (VBuckets (EB.SetBucketCounts b l)) st).
Proof.
  intros Hin. cbn in Hin. destruct Hin as [<- | [<- | []]]; cbn;
    intros [= <-] [= <-] [= <-]; destruct tCtx as [dp mt mts sc rs c];
    destruct dp; cbn; intros [= <-]; repeat split; reflexivity.
Qed.

End Shapes.

Lemma resolution_reads_a_prefix_witness :
  newPathGetSetter Sample.noResolver Sample.noResolver Sample.noResolver
    [ottl.mkField "count" (Some "k"); ottl.mkField "bogus_field" None]
  = Ok accessCount.
Proof.
  destruct (resolution_reads_a_prefix Sample.noResolver Sample.noResolver
              Sample.noResolver (ottl.mkField "count" (Some "k"))
              [ottl.mkField "bogus_field" None]) as (Hleaf & _ & _).
  destruct Hleaf as [Heq _]; [cbn; tauto|]. exact Heq.
Defined.

Lemma keyed_accessor_through_whole_map_witness :
  let tCtx := fst (Sample.contextOf (IsExponentialHistogram Sample.expoHistogram)) in
  let st := snd (Sample.contextOf (IsExponentialHistogram Sample.expoHistogram)) in
  Getter (accessAttributesKey "host") tCtx st = Ok (VString "a") /\
  Setter (accessAttributesKey "host") tCtx (VString "b") st
  = Setter accessAttributes tCtx (VMap [("host", pcommon.ValueStr "b")]) st.
Proof.
  intros tCtx st.
  apply (keyed_accessor_through_whole_map Sample.noResolver Sample.noResolver
           Sample.noResolver "attributes" "host" accessAttributes
           (accessAttributesKey "host") tCtx (VString "b") st
           [("host", pcommon.ValueStr "a")]); [cbn; tauto | reflexivity ..].
Defined.

Lemma substructure_accessor_through_whole_witness :
  let tCtx := fst (Sample.contextOf (IsExponentialHistogram Sample.expoHistogram)) in
  let st := snd (Sample.contextOf (IsExponentialHistogram Sample.expoHistogram)) in
  Getter accessNegativeOffset tCtx st = Ok (VInt64 (-1)) /\
  Getter accessNegativeBucketCounts tCtx st = Ok (VUint64Slice [3]).
Proof.
  intros tCtx st.
  destruct (substructure_accessor_through_whole Sample.noResolver Sample.noResolver
              Sample.noResolver "negative" accessNegative accessNegativeOffset
              accessNegativeBucketCounts tCtx st (EB.mk (-1) [3]))
    as (Hoff & Hcounts & _); [cbn; tauto | reflexivity ..|].
  split; [exact Hoff | exact Hcounts].
Defined.

(** ** The symbols [parseEnum] knows *)

Section SymbolDomain.

Variable MetricSymbolTable : gmap string ottl.Enum.

Lemma symbolTableLiteral_lookup sym enum :
  symbolTableLiteral !! sym = Some enum <->
  (sym = "FLAG_NONE" /\ enum = 0) \/ (sym = "FLAG_NO_RECORDED_VALUE" /\ enum = 1).
Proof.
  unfold symbolTableLiteral.
  rewrite !lookup_insert_Some, lookup_empty. intuition (subst; auto; congruence).
Qed.

(** [parseEnum] resolves a symbol exactly when it is FLAG_NONE,
    FLAG_NO_RECORDED_VALUE or a symbol of the shared table; a symbol of the
    shared table resolves to the shared value, and the two flag names, when
    the shared table does not define them, to 0 and 1. *)
Theorem parseEnum_domain sym :
  ((exists enum, parseEnum MetricSymbolTable (Some sym) = Ok enum) <->
   sym = "FLAG_NONE" \/ sym = "FLAG_NO_RECORDED_VALUE" \/
   is_Some (MetricSymbolTable !! sym)) /\
  (forall enum, MetricSymbolTable !! sym = Some enum ->
     parseEnum MetricSymbolTable (Some sym) = Ok enum) /\
  (MetricSymbolTable !! sym = None ->
     forall enum, parseEnum MetricSymbolTable (Some sym) = Ok enum <->
       (sym = "FLAG_NONE" /\ enum = 0) \/ (sym = "FLAG_NO_RECORDED_VALUE" /\ enum = 1)).
Proof.
  unfold parseEnum. rewrite symbolTable_lookup. split; [|split].
  - destruct (MetricSymbolTable !! sym) as [shared|] eqn:Hs.
    + split; [intros _; right; right; eauto | intros _; eauto].
    + destruct (symbolTableLiteral !! sym) as [own|] eqn:Ho.
      * apply symbolTableLiteral_lookup in Ho. split; [tauto | eauto].
      * split; [intros [enum [=]]|].
        intros [-> | [-> | [x [=]]]]; discriminate Ho.
  - now intros enum ->.
  - intros -> enum. rewrite <- symbolTableLiteral_lookup.
    destruct (symbolTableLiteral !! sym); split; congruence.
Qed.

End SymbolDomain.

(** * The handle of a Windows event *)

Section EventHandle.

Variable OS : Type.
Variable SysError : Type.
Variable evtClose : Z -> OS -> option SysError * OS.

(** [Close] on an event whose handle is zero returns nil and calls nothing.
    When [Close] returns nil the handle is zero afterwards, so every later
    [Close] returns nil and leaves the service untouched. When [Close]
    returns an error it is the wrapped error of [evtClose] and the handle
    is kept. *)
Theorem Close_once e os :
  (windows.handle e = 0 -> windows.Close OS SysError evtClose e os = (None, e, os)) /\
  (forall e' os',
     windows.Close OS SysError evtClose e os = (None, e', os') ->
     windows.handle e' = 0 /\
     forall os'', windows.Close OS SysError evtClose e' os'' = (None, e', os'')) /\
  (forall err e' os',
     windows.Close OS SysError evtClose e os = (Some err, e', os') ->
     e' = e /\ windows.handle e <> 0 /\
     exists sys,
       err = windows.ErrCloseHandle sys /\
       evtClose (windows.handle e) os = (Some sys, os')).
Proof.
  unfold windows.Close. destruct e as [h]. cbn [windows.handle].
  split; [|split].
  - intros ->. reflexivity.
  - intros e' os'. destruct (Z.eqb_spec h 0) as [-> | Hh].
    + intros [= <- <-]. cbn. auto.
    + destruct (evtClose h os) as [[sys|] os1]; intros [= <- <-]. cbn. auto.
  - intros err e' os'. destruct (Z.eqb_spec h 0) as [-> | Hh]; [discriminate|].
    destruct (evtClose h os) as [[sys|] os1]; intros [= <- <- <-].
    split; [reflexivity|]. split; [exact Hh|]. eauto.
Qed.

End EventHandle.

Lemma Close_once_witness :
  exists e' os',
    windows.Close (list Z) string windows.sampleClose (windows.NewEvent 7) [] = (None, e', os') /\
    windows.handle e' = 0 /\
    windows.Close (list Z) string windows.sampleClose e' os' = (None, e', os').
Proof.
  destruct (Close_once (list Z) string windows.sampleClose (windows.NewEvent 7) [])
    as (_ & Hok & _).
  exists (windows.mkEvent 0), [7].
  destruct (Hok (windows.mkEvent 0) [7] eq_refl) as [Hzero Hagain].
  split; [reflexivity|]. split; [exact Hzero | apply Hagain].
Defined.

(** * Errors of the remote-write translation *)

Section Folding.

Context {St A : Type}.
Variable step : St -> A -> St.

Lemma fold_left_invariant (P : St -> Prop) (xs : list A) :
  (forall a s, In a xs -> P s -> P (step s a)) ->
  forall s, P s -> P (fold_left step xs s).
Proof.
  induction xs as [|x xs IH]; cbn; intros Hstep s Hs; [exact Hs|].
  apply IH; [intros a s' Ha; apply Hstep; now right | apply Hstep; [now left | exact Hs]].
Qed.

Lemma fold_left_reaches (P : St -> Prop) (xs : list A) a :
  (forall x s, P s -> P (step s x)) ->
  In a xs ->
  (forall s, P (step s a)) ->
  forall s, P (fold_left step xs s).
Proof.
  intros Hmono. induction xs as [|x xs IH]; cbn; intros Hin Ha s; [destruct Hin|].
  destruct Hin as [-> | Hin].
  - apply fold_left_invariant; [intros; now apply Hmono | apply Ha].
  - now apply IH.
Qed.

End Folding.

Section RemoteWrite.

Variable TimeSeries : Type.
Variable isValidAggregationTemporality : prometheusremotewrite.Metric -> bool.
Variable mostRecentTimestampInMetric : prometheusremotewrite.Metric -> pcommon.Timestamp.
Variable maxTimestamp : pcommon.Timestamp -> pcommon.Timestamp -> pcommon.Timestamp.
Variable BuildPromCompliantName : prometheusremotewrite.Metric -> string -> string.
Variable addSingleNumberDataPoint :
  NDP.t -> pcommon.Resource -> prometheusremotewrite.Metric ->
  prometheusremotewrite.Settings -> gmap string TimeSeries -> gmap string TimeSeries.
Variable addSingleHistogramDataPoint :
  HDP.t -> pcommon.Resource -> prometheusremotewrite.Metric ->
  prometheusremotewrite.Settings -> gmap string TimeSeries -> gmap string TimeSeries.
Variable addSingleExponentialHistogramDataPoint :
  string -> EDP.t -> pcommon.Resource -> prometheusremotewrite.Settings ->
  gmap string TimeSeries -> option prometheusremotewrite.Error * gmap string TimeSeries.
Variable addSingleSummaryDataPoint :
  SDP.t -> pcommon.Resource -> prometheusremotewrite.Metric ->
  prometheusremotewrite.Settings -> gmap string TimeSeries -> gmap string TimeSeries.
Variable addResourceTargetInfo :
  pcommon.Resource -> prometheusremotewrite.Settings -> pcommon.Timestamp ->
  gmap string TimeSeries -> gmap string TimeSeries.

Local Abbreviation addSlice :=
  (prometheusremotewrite.addNumberDataPointSlice TimeSeries addSingleNumberDataPoint).
Local Abbreviation mstep :=
  (prometheusremotewrite.metricStep TimeSeries isValidAggregationTemporality
     mostRecentTimestampInMetric maxTimestamp BuildPromCompliantName
     addSingleNumberDataPoint addSingleHistogramDataPoint
     addSingleExponentialHistogramDataPoint addSingleSummaryDataPoint).
Local Abbreviation rstep :=
  (prometheusremotewrite.resourceStep TimeSeries isValidAggregationTemporality
     mostRecentTimestampInMetric maxTimestamp BuildPromCompliantName
     addSingleNumberDataPoint addSingleHistogramDataPoint
     addSingleExponentialHistogramDataPoint addSingleSummaryDataPoint
     addResourceTargetInfo).
Local Abbreviation translate :=
  (prometheusremotewrite.FromMetrics TimeSeries isValidAggregationTemporality
     mostRecentTimestampInMetric maxTimestamp BuildPromCompliantName
     addSingleNumberDataPoint addSingleHistogramDataPoint
     addSingleExponentialHistogramDataPoint addSingleSummaryDataPoint
     addResourceTargetInfo).
Local Abbreviation dropped :=
  (prometheusremotewrite.droppedWith isValidAggregationTemporality).


Lemma Append_keeps errs err e :
  In e errs -> In e (prometheusremotewrite.Append errs err).
Proof. destruct err; cbn; [rewrite in_app_iff; auto | auto]. Qed.

Lemma Append_adds errs e : In e (prometheusremotewrite.Append errs (Some e)).
Proof. cbn. rewrite in_app_iff. right. now left. Qed.

Lemma expoFold_keeps name resource settings dataPoints e
    (acc : gmap string TimeSeries * list prometheusremotewrite.Error) :
  In e (snd acc) ->
  In e (snd (fold_left
               (fun (acc : gmap string TimeSeries * list prometheusremotewrite.Error) dp =>
                  let '(err, m) :=
                    addSingleExponentialHistogramDataPoint name dp resource settings
                      (fst acc) in
                  (m, prometheusremotewrite.Append (snd acc) err))
               dataPoints acc)).
Proof.
  apply (fold_left_invariant _ (fun acc => In e (snd acc))).
  intros dp [m errs] _ Hin. cbn in *.
  destruct (addSingleExponentialHistogramDataPoint name dp resource settings m).
  cbn. now apply Append_keeps.
Qed.


(** Errors already collected stay collected. *)
Lemma metricStep_keeps resource settings s metric e :
  In e (snd (fst s)) -> In e (snd (fst (mstep resource settings s metric))).
Proof.
  destruct s as [[tsMap errs] ts]. cbn [fst snd]. intros Hin.
  unfold prometheusremotewrite.metricStep.
  destruct (negb (isValidAggregationTemporality metric)); [now apply Append_keeps|].
  destruct (prometheusremotewrite.Data metric) as [|dps|dps t b|dps t|dps t|dps].
  - now apply Append_keeps.
  - destruct dps; cbn; [rewrite in_app_iff|]; auto.
  - destruct dps; cbn; [rewrite in_app_iff|]; auto.
  - now apply Append_keeps.
  - match goal with
    | |- context [fold_left ?f dps ?a] =>
        pose proof (expoFold_keeps
                      (BuildPromCompliantName metric (prometheusremotewrite.Namespace settings))
                      resource settings dps e a) as Hk;
        destruct (fold_left f dps a) as [m errs']
    end.
    cbn in *. apply Hk. now apply Append_keeps.
  - now apply Append_keeps.
Qed.

(** A metric that is dropped leaves its error. *)
Lemma metricStep_reports resource settings s metric e :
  dropped metric = Some e -> In e (snd (fst (mstep resource settings s metric))).
Proof.
  destruct s as [[tsMap errs] ts]. unfold prometheusremotewrite.droppedWith,
    prometheusremotewrite.metricStep.
  destruct (negb (isValidAggregationTemporality metric)).
  { intros [= <-]. apply Append_adds. }
  destruct (prometheusremotewrite.Data metric) as [|dps|dps t b|dps t|dps t|dps];
    try destruct dps; try discriminate; intros [= <-]; try apply Append_adds.
Qed.


Lemma resourceStep_errors settings acc rm :
  snd (rstep settings acc rm)
  = snd (fst (fold_left
                (fun s scopeMetrics =>
                   fold_left (mstep (prometheusremotewrite.Resource rm) settings)
                     (prometheusremotewrite.Metrics scopeMetrics) s)
                (prometheusremotewrite.ScopeMetricsSlice rm) (fst acc, snd acc, 0))).
Proof.
  unfold prometheusremotewrite.resourceStep.
  match goal with |- context [fold_left ?f ?l ?a] => destruct (fold_left f l a) as [[m e] t] end.
  reflexivity.
Qed.

Lemma resourceStep_keeps settings acc rm e :
  In e (snd acc) -> In e (snd (rstep settings acc rm)).
Proof.
  intros Hin. rewrite resourceStep_errors.
  apply (fold_left_invariant _ (fun s => In e (snd (fst s)))); [|exact Hin].
  intros sm s _. apply (fold_left_invariant _ (fun s => In e (snd (fst s)))).
  intros m s' _. apply metricStep_keeps.
Qed.

Lemma In_allMetrics md metric :
  In metric (prometheusremotewrite.allMetrics md) <->
  exists rm sm,
    In rm md /\ In sm (prometheusremotewrite.ScopeMetricsSlice rm) /\
    In metric (prometheusremotewrite.Metrics sm).
Proof.
  unfold prometheusremotewrite.allMetrics. rewrite in_concat. split.
  - intros (l & Hl & Hm). apply in_map_iff in Hl as (rm & <- & Hrm).
    apply in_concat in Hm as (l' & Hl' & Hm).
    apply in_map_iff in Hl' as (sm & <- & Hsm). eauto.
  - intros (rm & sm & Hrm & Hsm & Hm).
    eexists. split; [apply in_map_iff; eauto|].
    apply in_concat. eexists. split; [apply in_map_iff; eauto | exact Hm].
Qed.

(** No metric is dropped silently: a metric of the input with an invalid
    combination of temporality and type, of no supported type, or without
    data points leaves its error among the errors [FromMetrics] returns. *)
Theorem FromMetrics_reports_dropped md settings metric e :
  In metric (prometheusremotewrite.allMetrics md) ->
  dropped metric = Some e ->
  In e (snd (translate md settings)).
Proof.
  intros Hin Hdrop. apply In_allMetrics in Hin as (rm & sm & Hrm & Hsm & Hm).
  unfold prometheusremotewrite.FromMetrics.
  apply (fold_left_reaches _ (fun acc => In e (snd acc)) md rm); [| exact Hrm |].
  - intros x acc. apply resourceStep_keeps.
  - intros acc. rewrite resourceStep_errors.
    apply (fold_left_reaches _ (fun s => In e (snd (fst s))) _ sm); [| exact Hsm |].
    + intros x s. apply (fold_left_invariant _ (fun s => In e (snd (fst s)))).
      intros m s' _. apply metricStep_keeps.
    + intros s.
      apply (fold_left_reaches _ (fun s => In e (snd (fst s))) _ metric); [| exact Hm |].
      * intros x s'. apply metricStep_keeps.
      * intros s'. now apply metricStep_reports.
Qed.


End RemoteWrite.

Lemma FromMetrics_reports_dropped_witness :
  In (prometheusremotewrite.ErrEmptyDataPoints "requests")
     (snd (SampleRemoteWrite.translate SampleRemoteWrite.emptyGauge)).
Proof.
  unfold SampleRemoteWrite.translate.
  apply (FromMetrics_reports_dropped _ _ _ _ _ _ _ _ _ _ _ _
           (prometheusremotewrite.mkMetric "requests" (prometheusremotewrite.DataGauge [])));
    [cbn; tauto | reflexivity].
Defined.


(** * Timestamps through [time.Time] *)

Section Timestamps.

Variable ResourcePathGetSetter : list ottl.Field -> result StandardGetSetter.
Variable ScopePathGetSetter : list ottl.Field -> result StandardGetSetter.
Variable MetricPathGetSetter : list ottl.Field -> result StandardGetSetter.

Local Abbreviation resolve :=
  (newPathGetSetter ResourcePathGetSetter ScopePathGetSetter MetricPathGetSetter).

(** The way through [time.Unix] and [UnixNano] loses nothing: Get of
    start_time_unix_nano and of time_unix_nano returns the stored uint64
    reinterpreted as int64, so a timestamp from 2^63 on reads negative;
    and Set of any int64 stores that value reinterpreted as uint64. *)
Theorem timestamp_accessors_reinterpret path f gs tCtx st ts :
  resolve path = Ok gs ->
  View.fieldOfPath path = Some f ->
  Times.storedTimestamp f (dataPoint tCtx) = Some ts ->
  Int.is_uint64 ts ->
  Getter gs tCtx st = Ok (VInt64 (View.reinterpretAsSigned64 ts)) /\
  (2 ^ 63 <= ts -> View.reinterpretAsSigned64 ts < 0) /\
  forall n, Int.is_int64 n ->
    exists tCtx',
      Setter gs tCtx (VInt64 n) st = (None, tCtx', st) /\
      Times.storedTimestamp f (dataPoint tCtx') = Some (View.reinterpretAsUnsigned64 n).
Proof.
  intros Hgs Hf Hts Hrange.
  rewrite (newPathGetSetter_field _ _ _ _ _ Hf) in Hgs. injection Hgs as <-.
  split; [|split].
  - rewrite <- (int64_of_uint64 ts Hrange), <- timestampToNano_int64.
    destruct tCtx as [dp mt mts sc rs c].
    destruct f; try discriminate Hts; destruct dp; try discriminate Hts;
      cbn in Hts; injection Hts as <-; reflexivity.
  - unfold View.reinterpretAsSigned64, Int.is_uint64, Int.two64 in *.
    intros Hbig. destruct (Z.ltb_spec ts (2 ^ 63)); lia.
  - intros n Hn. rewrite <- (uint64_of_int64 n Hn), <- (nanoToTimestamp_uint64 n Hn).
    destruct tCtx as [dp mt mts sc rs c].
    destruct f; try discriminate Hts; destruct dp; try discriminate Hts;
      eexists; split; reflexivity.
Qed.

End Timestamps.

Lemma timestamp_accessors_reinterpret_witness :
  let tCtx := fst (Sample.contextOf (IsNumber Times.lateNumber)) in
  let st := snd (Sample.contextOf (IsNumber Times.lateNumber)) in
  Int.is_uint64 (2 ^ 64 - 1) /\
  Getter accessTimeUnixNano tCtx st = Ok (VInt64 (-1)).
Proof.
  intros tCtx st.
  assert (Hr : Int.is_uint64 (2 ^ 64 - 1)) by in_range.
  split; [exact Hr|].
  exact (proj1 (timestamp_accessors_reinterpret Sample.noResolver Sample.noResolver
                  Sample.noResolver (Sample.path ["time_unix_nano"])
                  View.f_time_unix_nano accessTimeUnixNano tCtx st (2 ^ 64 - 1)
                  eq_refl eq_refl eq_refl Hr)).
Defined.
